(** * vscode-hlint: a shallow embedding of the extension's lint / refactor
    pipeline and of the version gate, with the properties of its spec.

    Sources embedded:
    - [src/src/extension.ts] (the Rx based revision: [runInWorkspace],
      [toDiagnostic], [refactor], [applyRefactorings], [lintDocument],
      [startLinting], [getExpectedVersion], [VERSION_RANGES], [activate], the
      code action provider of [registerRefactoringProvidersAndCommands]);
    - [src/unnamed/part_000] (file based revision, [lintDocument] callback);
    - [src/unnamed/part_001] (promise based revision, [lintDocument],
      [runInWorkspace], [applyRefactorings], [checkHLintVersion],
      [activate]).

    The npm [semver] package (5.x) is a library the code calls; the
    fragment of [semver.satisfies] that the version ranges of this repository
    exercise is modelled in [Module Semver]: ranges of plain comparators and
    X-ranges, versions with prerelease and build identifiers, and the
    [TypeError] an invalid version throws. *)

From stdpp Require Import base gmap strings list.
From Stdlib Require Import Ascii String NArith.

Local Open Scope string_scope.
Local Open Scope nat_scope.

(* ------------------------------------------------------------------ *)
(** ** Characters and small string utilities (JS string operations) *)

Module JsStr.

(** JS [\s] restricted to ASCII: tab, LF, VT, FF, CR and space. *)
Definition is_space (c : ascii) : bool :=
  let n := nat_of_ascii c in
  (Nat.eqb n 32 || ((9 <=? n) && (n <=? 13)))%bool.

Definition digit_val (c : ascii) : option nat :=
  let n := nat_of_ascii c in
  if ((48 <=? n) && (n <=? 57))%bool then Some (n - 48) else None.

Fixpoint drop_while (p : ascii -> bool) (l : list ascii) : list ascii :=
  match l with
  | [] => []
  | c :: r => if p c then drop_while p r else l
  end.

(** [String.prototype.trim]. *)
Definition trim (l : list ascii) : list ascii :=
  rev (drop_while is_space (rev (drop_while is_space l))).

(** Split off the longest prefix of decimal digits. *)
Fixpoint take_digits (l : list ascii) : list nat * list ascii :=
  match l with
  | c :: r =>
      match digit_val c with
      | Some d => let '(ds, rest) := take_digits r in (d :: ds, rest)
      | None => ([], l)
      end
  | [] => ([], [])
  end.

Definition digits_to_nat (ds : list nat) : nat :=
  fold_left (fun acc d => acc * 10 + d) ds 0.

(** Split on whitespace runs, dropping empty pieces ([split(/\s+/)] after
    [trim]). *)
Fixpoint words_aux (cur : list ascii) (l : list ascii) : list (list ascii) :=
  match l with
  | [] => match cur with [] => [] | _ => [rev cur] end
  | c :: r =>
      if is_space c then
        match cur with
        | [] => words_aux [] r
        | _ => rev cur :: words_aux [] r
        end
      else words_aux (c :: cur) r
  end.

Definition words (l : list ascii) : list (list ascii) := words_aux [] l.

(** Split on the two character separator ["||"]. *)
Fixpoint split_bars_aux (cur : list ascii) (l : list ascii)
  : list (list ascii) :=
  match l with
  | [] => [rev cur]
  | "|"%char :: "|"%char :: r => rev cur :: split_bars_aux [] r
  | c :: r => split_bars_aux (c :: cur) r
  end.

Definition split_bars (l : list ascii) : list (list ascii) :=
  split_bars_aux [] l.

(** JS truthiness of a string: only [""] is falsy. *)
Definition truthy (s : string) : bool := negb (String.eqb s "").

(** [s.slice(0, -1)]: drop the last UTF-16 unit (a character here). *)
Definition slice_0_m1 (s : string) : string :=
  String.substring 0 (String.length s - 1) s.

(** [Array.prototype.join(sep)]. *)
Fixpoint join (sep : string) (l : list string) : string :=
  match l with
  | [] => ""
  | [x] => x
  | x :: r => String.append x (String.append sep (join sep r))
  end.

End JsStr.

Definition newline : string := String (ascii_of_nat 10) EmptyString.

(* ------------------------------------------------------------------ *)
(** ** JS errors *)

Inductive JsClass := Error_class | VersionError_class.

(** The JS values the error handling inspects. *)
Inductive JsValue :=
  | JsString (s : string)
  | JsNumber (z : Z)
  | JsObject (cls : JsClass).

(** [v instanceof C]: only objects are instances, of their own class, and
    [VersionError extends Error]. *)
Definition instanceof (v : JsValue) (C : JsClass) : bool :=
  match v, C with
  | JsObject VersionError_class, _ => true
  | JsObject Error_class, Error_class => true
  | _, _ => false
  end.

Record JsError := mkJsError {
  err_class : JsClass;
  err_name : string;
  err_code : option JsValue;
  err_errno : bool;
  err_message : string
}.

Definition jsError (msg : string) : JsError :=
  mkJsError Error_class "Error" None false msg.

(** [new VersionError(message)]: [this.name = "VersionError"]. *)
Definition VersionError (msg : string) : JsError :=
  mkJsError VersionError_class "VersionError" None false msg.

(** [Error.prototype.toString]: ["name: message"], or just the name or the
    message when the other one is empty. *)
Definition error_toString (e : JsError) : string :=
  if String.eqb (err_name e) "" then err_message e
  else if String.eqb (err_message e) "" then err_name e
  else String.append (err_name e) (String.append ": " (err_message e)).

(** [new TypeError(message)], as semver throws it. *)
Definition TypeError (msg : string) : JsError :=
  mkJsError Error_class "TypeError" None false msg.

(* ------------------------------------------------------------------ *)
(** ** The fragment of npm [semver] used by the version gate *)

Module Semver.
Import JsStr.

Record version := mkVersion { major : nat; minor : nat; patch : nat }.

(** Comparison operators of a comparator (GTLT; [""] and ["="] both mean
    equality once the comparator is built). *)
Inductive op := OpEq | OpGt | OpGe | OpLt | OpLe.

Inductive comparator :=
  | Any                       (* the empty comparator, [ANY] *)
  | Cmp (o : op) (v : version).

Definition compare_version (a b : version) : comparison :=
  match Nat.compare (major a) (major b) with
  | Eq => match Nat.compare (minor a) (minor b) with
          | Eq => Nat.compare (patch a) (patch b)
          | c => c
          end
  | c => c
  end.

(** [cmp(version, operator, semver)]. *)
Definition cmp (v : version) (o : op) (w : version) : bool :=
  match o, compare_version v w with
  | OpEq, Eq => true
  | OpGt, Gt => true
  | OpGe, (Gt | Eq) => true
  | OpLt, Lt => true
  | OpLe, (Lt | Eq) => true
  | _, _ => false
  end.

(** [Comparator.prototype.test]. *)
Definition comparator_test (c : comparator) (v : version) : bool :=
  match c with
  | Any => true
  | Cmp o w => cmp v o w
  end.

(** A numeric identifier: in strict mode [0|[1-9]\d*], in loose mode
    [\d+]. Returns the value and the rest. *)
Definition parse_numeric (loose : bool) (l : list ascii)
  : option (nat * list ascii) :=
  let '(ds, rest) := take_digits l in
  match ds with
  | [] => None
  | 0 :: _ :: _ => if loose then Some (digits_to_nat ds, rest) else None
  | _ => Some (digits_to_nat ds, rest)
  end.

(** *** [new SemVer(version, loose)] *)

(** [MAX_LENGTH] and [Number.MAX_SAFE_INTEGER]. *)
Definition MAX_LENGTH : nat := 256.
Definition MAX_SAFE_INTEGER : N := 9007199254740991%N.

(** A parsed version: [major.minor.patch], the prerelease and the build
    identifiers. *)
Record semver := mkSemVer {
  sv_version : version;
  sv_prerelease : list (list ascii);
  sv_build : list (list ascii)
}.

Definition is_digit_char (c : ascii) : bool :=
  match digit_val c with Some _ => true | None => false end.

(** [[0-9A-Za-z-]]. *)
Definition is_ident_char (c : ascii) : bool :=
  let n := nat_of_ascii c in
  (is_digit_char c || ((65 <=? n) && (n <=? 90)) || ((97 <=? n) && (n <=? 122))
   || Nat.eqb n 45)%bool.

(** Split off the longest prefix of decimal digit characters. *)
Fixpoint span_digits (l : list ascii) : list ascii * list ascii :=
  match l with
  | c :: r =>
      if is_digit_char c then let '(ds, rest) := span_digits r in (c :: ds, rest)
      else ([], l)
  | [] => ([], [])
  end.

Definition nat_of_digits (ds : list ascii) : nat :=
  fold_left (fun acc c => acc * 10 + default 0 (digit_val c)) ds 0.

Definition N_of_digits (ds : list ascii) : N :=
  fold_left (fun acc c => (acc * 10 + N.of_nat (default 0%nat (digit_val c)))%N) ds 0%N.

(** [split(".")]. *)
Fixpoint split_dots_aux (cur : list ascii) (l : list ascii) : list (list ascii) :=
  match l with
  | [] => [rev cur]
  | "."%char :: r => rev cur :: split_dots_aux [] r
  | c :: r => split_dots_aux (c :: cur) r
  end.

Definition split_dots (l : list ascii) : list (list ascii) := split_dots_aux [] l.

(** [NUMERICIDENTIFIER] ([0|[1-9]\d*], loose [[0-9]+]) for a main version
    number. *)
Definition numeric_ok (loose : bool) (d : list ascii) : bool :=
  match d with
  | [] => false
  | c :: r => (loose || negb (Ascii.eqb c "0") || match r with [] => true | _ => false end)%bool
  end.

(** A prerelease identifier: a numeric identifier, or
    [NONNUMERICIDENTIFIER] ([\d*[a-zA-Z-][a-zA-Z0-9-]*]). *)
Definition prerelease_ident_ok (loose : bool) (id : list ascii) : bool :=
  (forallb is_ident_char id
   && (negb (forallb is_digit_char id) || numeric_ok loose id))%bool.

(** A build identifier: [[0-9A-Za-z-]+]. *)
Definition build_ident_ok (id : list ascii) : bool :=
  match id with [] => false | _ => forallb is_ident_char id end.

(** Dot separated identifiers, each accepted by [ok]. *)
Definition parse_idents (ok : list ascii -> bool) (l : list ascii)
  : option (list (list ascii)) :=
  let ids := split_dots l in if forallb ok ids then Some ids else None.

(** Split at the first [+]. *)
Fixpoint split_plus (l : list ascii) : list ascii * option (list ascii) :=
  match l with
  | [] => ([], None)
  | "+"%char :: r => ([], Some r)
  | c :: r => let '(a, b) := split_plus r in (c :: a, b)
  end.

(** What follows the patch number up to the end:
    [(?:-PRERELEASE)?(?:\+BUILD)?$], with the hyphen optional in loose mode
    ([-?PRERELEASELOOSE]; the greedy hyphen is tried first). No identifier
    contains [+], so the build part starts at the first [+]. *)
Definition parse_tail (loose : bool) (t : list ascii)
  : option (list (list ascii) * list (list ascii)) :=
  let '(pre_part, build_part) := split_plus t in
  let build := match build_part with
               | None => Some []
               | Some b => parse_idents build_ident_ok b
               end in
  let pre := match pre_part with
             | [] => Some []
             | "-"%char :: r =>
                 match parse_idents (prerelease_ident_ok loose) r with
                 | Some ids => Some ids
                 | None => if loose then parse_idents (prerelease_ident_ok loose) pre_part
                           else None
                 end
             | _ => if loose then parse_idents (prerelease_ident_ok loose) pre_part
                    else None
             end in
  match pre, build with
  | Some p, Some b => Some (p, b)
  | _, _ => None
  end.

(** Loose mode: the patch group [(\d+)] backtracks when the rest does not
    match, so patch lengths [k], [k-1], ..., [1] are tried in turn. *)
Fixpoint loose_patch (k : nat) (dp rest : list ascii)
  : option (list ascii * (list (list ascii) * list (list ascii))) :=
  match k with
  | 0 => None
  | S k' =>
      match parse_tail true (app (skipn k dp) rest) with
      | Some t => Some (firstn k dp, t)
      | None => loose_patch k' dp rest
      end
  end.

(** [version.trim().match(loose ? re[LOOSE] : re[FULL])]: [FULL] is
    [^v?MAINVERSION(?:-PRERELEASE)?(?:\+BUILD)?$], [LOOSE] is
    [^[v=\s]*MAINVERSIONLOOSE(?:-?PRERELEASELOOSE)?(?:\+BUILD)?$]. Gives the
    digits of the three numbers, the prerelease and the build identifiers. *)
Definition match_semver (loose : bool) (s : list ascii)
  : option (list ascii * list ascii * list ascii * list (list ascii) * list (list ascii)) :=
  let l := trim s in
  let l := if loose then drop_while (fun c => (is_space c
                           || Ascii.eqb c "v" || Ascii.eqb c "=")%bool) l
           else match l with "v"%char :: r => r | _ => l end in
  let '(dM, r0) := span_digits l in
  match r0 with
  | "."%char :: l1 =>
      let '(dm, r1) := span_digits l1 in
      match r1 with
      | "."%char :: l2 =>
          let '(dp, r2) := span_digits l2 in
          if (numeric_ok loose dM && numeric_ok loose dm)%bool then
            if loose then
              match loose_patch (List.length dp) dp r2 with
              | Some (p, (pre, b)) => Some (dM, dm, p, pre, b)
              | None => None
              end
            else if numeric_ok false dp then
              match parse_tail false r2 with
              | Some (pre, b) => Some (dM, dm, dp, pre, b)
              | None => None
              end
            else None
          else None
      | _ => None
      end
  | _ => None
  end.

(** [new SemVer(version, loose)] on a string: it throws a [TypeError] when
    the string is too long, does not match, or has a number above
    [MAX_SAFE_INTEGER]. *)
Definition new_SemVer (loose : bool) (version : string) : JsError + semver :=
  if (MAX_LENGTH <? String.length version)%nat then
    inl (TypeError "version is longer than 256 characters")
  else
    match match_semver loose (list_ascii_of_string version) with
    | None => inl (TypeError (String.append "Invalid Version: " version))
    | Some (dM, dm, dp, pre, b) =>
        if N.ltb MAX_SAFE_INTEGER (N_of_digits dM) then inl (TypeError "Invalid major version")
        else if N.ltb MAX_SAFE_INTEGER (N_of_digits dm) then inl (TypeError "Invalid minor version")
        else if N.ltb MAX_SAFE_INTEGER (N_of_digits dp) then inl (TypeError "Invalid patch version")
        else inr (mkSemVer (mkVersion (nat_of_digits dM) (nat_of_digits dm) (nat_of_digits dp))
                    pre b)
    end.

(** [testSet]: every comparator of the set accepts the version; a
    prerelease version then also needs a comparator with a prerelease on the
    same [major.minor.patch]. The comparators built from the ranges of this
    repository carry no prerelease, so a prerelease version fails every set
    (and the prerelease order of [compare] never matters); build
    identifiers are ignored. *)
Definition test_set (set : list comparator) (v : semver) : bool :=
  (forallb (fun c => comparator_test c (sv_version v)) set
   && match sv_prerelease v with [] => true | _ => false end)%bool.

(** The sets of [Range.prototype.test]. *)
Definition range_test (r : list (list comparator)) (v : semver) : bool :=
  existsb (fun set => test_set set v) r.

(** An X-range identifier: a number, or one of [x], [X], [*]; a missing
    identifier counts as [x] ([isX]). *)
Inductive xid := XNum (n : nat) | XWild.

Definition is_x (i : xid) : bool := match i with XWild => true | _ => false end.
Definition xval (i : xid) : nat := match i with XNum n => n | XWild => 0 end.

Definition parse_xid (loose : bool) (l : list ascii) : option (xid * list ascii) :=
  match l with
  | c :: r =>
      if (Ascii.eqb c "x" || Ascii.eqb c "X" || Ascii.eqb c "*")%bool
      then Some (XWild, r)
      else match parse_numeric loose l with
           | Some (n, rest) => Some (XNum n, rest)
           | None => None
           end
  | [] => None
  end.

(** GTLT [((?:<|>)?=?)]; [None] is the empty operator. *)
Definition parse_gtlt (l : list ascii) : option op * list ascii :=
  match l with
  | "<"%char :: "="%char :: r => (Some OpLe, r)
  | ">"%char :: "="%char :: r => (Some OpGe, r)
  | "<"%char :: r => (Some OpLt, r)
  | ">"%char :: r => (Some OpGt, r)
  | "="%char :: r => (Some OpEq, r)
  | _ => (None, l)
  end.

(** [replaceXRange] followed by [new Comparator] on its result(s). *)
Definition desugar_xrange (gtlt : option op) (M m p : xid) : list comparator :=
  let xM := is_x M in
  let xm := (xM || is_x m)%bool in
  let xp := (xm || is_x p)%bool in
  let anyX := xp in
  let gtlt := match gtlt with
              | Some OpEq => if anyX then None else gtlt
              | _ => gtlt
              end in
  let vM := xval M in
  let vm := xval m in
  let vp := xval p in
  if xM then
    match gtlt with
    | Some OpGt | Some OpLt => [Cmp OpLt (mkVersion 0 0 0)]
    | _ => [Any]
    end
  else match gtlt with
  | Some o =>
      if anyX then
        let vm := if xm then 0 else vm in
        let vp := if xp then 0 else vp in
        match o with
        | OpGt =>
            if xm then [Cmp OpGe (mkVersion (vM + 1) 0 0)]
            else [Cmp OpGe (mkVersion vM (vm + 1) 0)]
        | OpLe =>
            if xm then [Cmp OpLt (mkVersion (vM + 1) vm vp)]
            else [Cmp OpLt (mkVersion vM (vm + 1) vp)]
        | _ => [Cmp o (mkVersion vM vm vp)]
        end
      else [Cmp o (mkVersion vM vm vp)]
  | None =>
      if xm then [Cmp OpGe (mkVersion vM 0 0); Cmp OpLt (mkVersion (vM + 1) 0 0)]
      else if xp then [Cmp OpGe (mkVersion vM vm 0); Cmp OpLt (mkVersion vM (vm + 1) 0)]
      else [Cmp OpEq (mkVersion vM vm vp)]
  end.

(** One comparator token of a range: [None] when it is not a comparator
    (strict mode then throws, loose mode drops it). Tilde, caret, hyphen
    ranges and prerelease tags are outside the model. *)
Definition parse_comparator (loose : bool) (tok : list ascii)
  : option (list comparator) :=
  match tok with
  | [] => Some [Any]
  | _ =>
    let '(gtlt, l) := parse_gtlt tok in
    let l := drop_while (fun c => (is_space c || Ascii.eqb c "v"
                                   || Ascii.eqb c "=")%bool) l in
    match parse_xid loose l with
    | Some (M, []) => Some (desugar_xrange gtlt M XWild XWild)
    | Some (M, "."%char :: l1) =>
        match parse_xid loose l1 with
        | Some (m, []) => Some (desugar_xrange gtlt M m XWild)
        | Some (m, "."%char :: l2) =>
            match parse_xid loose l2 with
            | Some (p, []) => Some (desugar_xrange gtlt M m p)
            | _ => None
            end
        | _ => None
        end
    | _ => None
    end
  end.

Definition is_op_token (w : list ascii) : bool :=
  match w with
  | ["<"%char] | [">"%char] | ["="%char]
  | ["<"%char; "="%char] | [">"%char; "="%char] => true
  | _ => false
  end.

(** COMPARATORTRIM: an operator separated from its version by blanks is
    glued to it ([> 1.2.3] becomes [>1.2.3]). *)
Fixpoint glue_ops (ws : list (list ascii)) : list (list ascii) :=
  match ws with
  | w :: r =>
      if is_op_token w then
        match r with
        | w' :: r' => app w w' :: glue_ops r'
        | [] => [w]
        end
      else w :: glue_ops r
  | [] => []
  end.

Fixpoint parse_set (loose : bool) (toks : list (list ascii))
  : option (list comparator) :=
  match toks with
  | [] => Some []
  | t :: r =>
      match parse_comparator loose t, parse_set loose r with
      | Some cs, Some rest => Some (app cs rest)
      | None, Some rest => if loose then Some rest else None
      | _, None => None
      end
  end.

(** [Range.prototype.parseRange] on one alternative. *)
Definition parse_range_part (loose : bool) (l : list ascii)
  : option (list comparator) :=
  match glue_ops (words (trim l)) with
  | [] => Some [Any]
  | toks => parse_set loose toks
  end.

(** [new Range(range, loose)]: split on [||], parse each part, drop empty
    sets; no set left is an invalid range. *)
Definition parse_range (loose : bool) (s : string)
  : option (list (list comparator)) :=
  let parts := split_bars (list_ascii_of_string s) in
  match mapM (parse_range_part loose) parts with
  | Some sets =>
      match List.filter (fun set => match set with [] => false | _ => true end) sets with
      | [] => None
      | r => Some r
      end
  | None => None
  end.

(** [semver.satisfies(version, range, loose)] of semver 5.x:
    [try { range = new Range(range, loose) } catch (er) { return false }]
    then [range.test(version)], which gives [false] for an empty version
    and otherwise calls [new SemVer(version, loose)] outside any [try]: an
    invalid version throws its [TypeError] out of [satisfies]. *)
Definition satisfies (version range : string) (loose : bool) : JsError + bool :=
  match parse_range loose range with
  | None => inr false
  | Some r =>
      if String.eqb version "" then inr false
      else match new_SemVer loose version with
           | inl e => inl e
           | inr v => inr (range_test r v)
           end
  end.

End Semver.

(** [VERSION_RANGES] of extension.ts. *)
Definition VERSION_RANGES_hlint : string := ">=2.0.8 || <2 >=1.9.25".
Definition VERSION_RANGES_applyRefact : string := ">= 0.3".

Example range_parse_hlint :
  Semver.parse_range true VERSION_RANGES_hlint =
  Some [[Semver.Cmp Semver.OpGe (Semver.mkVersion 2 0 8)];
        [Semver.Cmp Semver.OpLt (Semver.mkVersion 2 0 0);
         Semver.Cmp Semver.OpGe (Semver.mkVersion 1 9 25)]].
Proof. vm_compute. reflexivity. Qed.

Example range_parse_refact :
  Semver.parse_range true VERSION_RANGES_applyRefact =
  Some [[Semver.Cmp Semver.OpGe (Semver.mkVersion 0 3 0)]].
Proof. vm_compute. reflexivity. Qed.

Example range_parse_hlint_strict :
  Semver.parse_range false VERSION_RANGES_hlint =
  Some [[Semver.Cmp Semver.OpGe (Semver.mkVersion 2 0 8)];
        [Semver.Cmp Semver.OpLt (Semver.mkVersion 2 0 0);
         Semver.Cmp Semver.OpGe (Semver.mkVersion 1 9 25)]].
Proof. vm_compute. reflexivity. Qed.

(* ------------------------------------------------------------------ *)
(** ** Data model: HLint messages and VSCode diagnostics *)

(** [IHLintMessage], as it appears in HLint's JSON output. The severity
    is kept as the raw JSON string. *)
Record IHLintMessage := mkHLintMessage {
  module : string;
  decl : string;
  severity : string;
  hint : string;
  file : string;
  startLine : Z;
  startColumn : Z;
  endLine : Z;
  endColumn : Z;
  from : string;
  to : string;
  note : list string;
  refactorings : string
}.

Module DiagnosticSeverity.
Inductive t := Error | Warning | Information | Hint.
End DiagnosticSeverity.

(** [new Range(startLine, startCharacter, endLine, endCharacter)] as the
    four numbers the code passes to the host. *)
Record Range := mkRange {
  range_startLine : Z;
  range_startCharacter : Z;
  range_endLine : Z;
  range_endCharacter : Z
}.

(** A [vscode.Diagnostic] with the [source] and [code] fields the code sets. *)
Record Diagnostic := mkDiagnostic {
  diag_range : Range;
  diag_message : string;
  diag_severity : DiagnosticSeverity.t;
  diag_source : string;
  diag_code : string
}.

Definition HLINT_SOURCE : string := "hlint".

Definition toDiagnosticSeverity (hlintSeverity : string) : DiagnosticSeverity.t :=
  if String.eqb hlintSeverity "Suggestion" then DiagnosticSeverity.Hint
  else if String.eqb hlintSeverity "Warning" then DiagnosticSeverity.Warning
  else if String.eqb hlintSeverity "Error" then DiagnosticSeverity.Error
  else DiagnosticSeverity.Information.

(** [toDiagnostic] of extension.ts. *)
Definition toDiagnostic (hlintMessage : IHLintMessage) : Diagnostic :=
  let range := mkRange
    (startLine hlintMessage - 1)%Z
    (startColumn hlintMessage - 1)%Z
    (endLine hlintMessage - 1)%Z
    (endColumn hlintMessage - 1)%Z in
  let message :=
    if JsStr.truthy (to hlintMessage)
    then String.append (hint hlintMessage)
           (String.append ". Replace with " (to hlintMessage))
    else hint hlintMessage in
  let severity := toDiagnosticSeverity (severity hlintMessage) in
  mkDiagnostic range message severity HLINT_SOURCE (refactorings hlintMessage).

(** [vscode.Uri.file(path)]. *)
Inductive Uri := Uri_file (path : string).

(** A [vscode.Diagnostic] built by [new vscode.Diagnostic(range, message,
    severity)] alone: its [source] and [code] stay undefined. *)
Record PlainDiagnostic := mkPlainDiagnostic {
  pdiag_range : Range;
  pdiag_message : string;
  pdiag_severity : DiagnosticSeverity.t
}.

(** [toDiagnostic] of part_000: the range, message and severity of
    extension.ts's [toDiagnostic], without [source] and [code]. *)
Definition toDiagnostic_part000 (hlintMessage : IHLintMessage) : PlainDiagnostic :=
  let range := mkRange
    (startLine hlintMessage - 1)%Z
    (startColumn hlintMessage - 1)%Z
    (endLine hlintMessage - 1)%Z
    (endColumn hlintMessage - 1)%Z in
  let message :=
    if JsStr.truthy (to hlintMessage)
    then String.append (hint hlintMessage)
           (String.append ". Replace with " (to hlintMessage))
    else hint hlintMessage in
  let severity := toDiagnosticSeverity (severity hlintMessage) in
  mkPlainDiagnostic range message severity.

(** [toDiagnosticEntry] of part_000. *)
Definition toDiagnosticEntry (msg : IHLintMessage) : Uri * list PlainDiagnostic :=
  (Uri_file (file msg), [toDiagnostic_part000 msg]).

(* ------------------------------------------------------------------ *)
(** ** Processes and JS errors *)

(** What [execFile] reports for a child: it could not be spawned (a system
    error carrying [errno] and a string [code] such as ["ENOENT"]), or it
    exited with a status and captured output. *)
Inductive ExecResult :=
  | SpawnError (code : string)
  | Exited (status : Z) (stdout stderr : string).

(** The [error] argument of [execFile]'s callback when [command] (the file
    followed by its arguments; never empty in the code) was run: a spawn
    failure is a system error with [errno], a string [code] and node's
    message ["spawn " + file + " " + code]; a non-zero exit status is an
    error whose [code] is the status and whose message is
    ["Command failed: " + [file, ...args].join(" ") + "\n" + stderr]; exit
    status 0 is no error. *)
Definition execFile_error (command : list string) (r : ExecResult) : option JsError :=
  match r with
  | SpawnError c =>
      Some (mkJsError Error_class "Error" (Some (JsString c)) true
              (String.append "spawn " (String.append (default "" (head command))
                 (String.append " " c))))
  | Exited s _ stderr =>
      if Z.eqb s 0 then None
      else Some (mkJsError Error_class "Error" (Some (JsNumber s)) false
                   (String.append "Command failed: " (String.append (JsStr.join " " command)
                      (String.append newline stderr))))
  end.

(** The [stdout] and [stderr] arguments of the callback (empty when the
    child could not be spawned). *)
Definition exec_output (r : ExecResult) : string * string :=
  match r with
  | Exited _ stdout stderr => (stdout, stderr)
  | SpawnError _ => ("", "")
  end.

(** Operations on the child's standard input. *)
Inductive StdinOp := StdinEnd (text : string).

Definition stdin_closed (ops : list StdinOp) : bool :=
  match ops with [] => false | _ => true end.

(** A spawned command: the command line, what is done to its standard
    input, and how its completion is turned into the observable's value. *)
Record Run := mkRun {
  run_command : list string;
  run_stdin : list StdinOp;
  run_result : ExecResult -> JsError + string
}.

(** [runInWorkspace] of extension.ts: [if (stdin) child.stdin.end(stdin)];
    the callback reads [error] and [stdout] only. *)
Definition runInWorkspace (command : list string) (stdin : option string) : Run :=
  mkRun command
    (match stdin with
     | Some s => if JsStr.truthy s then [StdinEnd s] else []
     | None => []
     end)
    (fun r => match execFile_error command r with
              | Some e => inl e
              | None => inr (fst (exec_output r))
              end).

Definition stackExec (cmd : list string) : list string :=
  "stack" :: "exec" :: "--" :: cmd.

(* ------------------------------------------------------------------ *)
(** ** Linting *)

(** A [TextDocument]: identity, file name, language, text, dirty flag. *)
Record TextDocument := mkTextDocument {
  uri : string;
  fileName : string;
  languageId : string;
  getText : string;
  isDirty : bool
}.

Section Linting.

(** [JSON.parse] of HLint's output: [None] when it throws. *)
Variable JSON_parse : string -> option (list IHLintMessage).

(** The [SyntaxError] thrown by [JSON.parse] (its message depends on the
    input; one fixed message stands for all). *)
Definition SyntaxError : JsError :=
  mkJsError Error_class "SyntaxError" None false "Unexpected token in JSON".

(** [lintDocument] of extension.ts:
    [runInWorkspace(stackExec(["hlint", "--no-exit-code", "--json", "-"]),
    document.getText()).map(stdout => JSON.parse(stdout))]. *)
Definition lintDocument_run (document : TextDocument) : Run :=
  runInWorkspace (stackExec ["hlint"; "--no-exit-code"; "--json"; "-"])
                 (Some (getText document)).

Definition lintDocument (document : TextDocument) (r : ExecResult)
  : JsError + list IHLintMessage :=
  match run_result (lintDocument_run document) r with
  | inl e => inl e
  | inr stdout =>
      match JSON_parse stdout with
      | Some messages => inr messages
      | None => inl SyntaxError
      end
  end.

Definition is_stdin_message (m : IHLintMessage) : bool := String.eqb (file m) "-".

(** State of [startLinting]: the diagnostic collection (absent key = no
    diagnostics), the lint cycles whose process is running (by dispatch
    number), the next dispatch number and the error messages shown. *)
Record LintState := mkLintState {
  diagnostics : gmap string (list Diagnostic);
  inflight : gmap nat TextDocument;
  next_cycle : nat;
  shown_errors : list string
}.

Inductive LintEvent :=
  (** the per-document debounce emits [document]: a lint cycle starts *)
  | Debounced (document : TextDocument)
  (** the process of cycle [n] ends with [r] *)
  | Completed (n : nat) (r : ExecResult)
  (** [onDidCloseTextDocument] *)
  | Closed (document : TextDocument).

(** The inner observable's handlers: the [catch] shows [err.toString()]
    and deletes, the [subscribe] callback sets the filtered diagnostics. *)
Definition complete_cycle (document : TextDocument) (r : ExecResult)
    (s : LintState) : LintState :=
  match lintDocument document r with
  | inl err =>
      mkLintState (delete (uri document) (diagnostics s)) (inflight s)
        (next_cycle s) (shown_errors s ++ [error_toString err])
  | inr messages =>
      mkLintState
        (<[uri document := map toDiagnostic (List.filter is_stdin_message messages)]>
           (diagnostics s))
        (inflight s) (next_cycle s) (shown_errors s)
  end.

(** One step of the pipeline built by [startLinting]: the language filter
    sits before the debounce; [mergeAll] runs cycles side by side and
    hands each result on when its process ends; the close subscription
    deletes the document's diagnostics. *)
Definition lint_step (s : LintState) (ev : LintEvent) : LintState :=
  match ev with
  | Debounced document =>
      if String.eqb (languageId document) "haskell" then
        mkLintState (diagnostics s)
          (<[next_cycle s := document]> (inflight s))
          (S (next_cycle s)) (shown_errors s)
      else s
  | Completed n r =>
      match inflight s !! n with
      | Some document =>
          complete_cycle document r
            (mkLintState (diagnostics s) (delete n (inflight s))
               (next_cycle s) (shown_errors s))
      | None => s
      end
  | Closed document =>
      mkLintState (delete (uri document) (diagnostics s)) (inflight s)
        (next_cycle s) (shown_errors s)
  end.

Definition lint_run (s : LintState) (evs : list LintEvent) : LintState :=
  fold_left lint_step evs s.

Definition initial_state : LintState := mkLintState ∅ ∅ 0 [].

(** What a finished cycle leaves in the collection for its document. *)
Definition publish_outcome (document : TextDocument) (r : ExecResult)
  : option (list Diagnostic) :=
  match lintDocument document r with
  | inl _ => None
  | inr messages => Some (map toDiagnostic (List.filter is_stdin_message messages))
  end.

(** [diagnostics.get(uri)] as the editor shows it: nothing is empty. *)
Definition get_diagnostics (s : LintState) (u : string) : list Diagnostic :=
  default [] (diagnostics s !! u).

(** [lintDocument] of part_001 (saved file, promise based): bail out on
    dirty or missing files, run [hlint --no-exit-code --json <file>], set
    the messages of that file, delete on any error. [exists_on_disk] is
    [existsSync(document.fileName)]. *)
Definition lintDocument_file (document : TextDocument) (exists_on_disk : bool)
    (r : ExecResult) (diags : gmap string (list Diagnostic))
  : gmap string (list Diagnostic) :=
  if (isDirty document || negb exists_on_disk)%bool then diags
  else
    let result :=
      match execFile_error ["hlint"; "--no-exit-code"; "--json"; fileName document] r with
      | None => JSON_parse (fst (exec_output r))
      | Some _ => None
      end in
    match result with
    | Some messages =>
        <[uri document := map toDiagnostic
             (List.filter (fun m => String.eqb (file m) (fileName document)) messages)]>
          diags
    | None => delete (uri document) diags
    end.

(** Outcome of the [execFile] callback of part_000's [lintDocument]:
    [ShowRunFailure m] shows ["Failed to run hlint: " + m], [ShowFailure s]
    shows ["hslint failed: " + s], [SetEntries es] is
    [diagnostics.set(es)], and [UncaughtSyntaxError] is a throwing
    [JSON.parse]. *)
Inductive FileLintOutcome :=
  | ShowRunFailure (error_message : string)
  | ShowFailure (stderr : string)
  | SetEntries (entries : list (Uri * list PlainDiagnostic))
  | UncaughtSyntaxError.

(** The callback of [execFile("hlint", ["--json", document.fileName])] in
    part_000: a system error ([errno]) is shown; then any standard error
    output is shown as a failure; otherwise every message becomes an entry
    for its own file. *)
Definition lintDocument_part000_callback (document : TextDocument) (r : ExecResult)
  : FileLintOutcome :=
  let '(stdout, stderr) := exec_output r in
  match execFile_error ["hlint"; "--json"; fileName document] r with
  | Some error =>
      if err_errno error then ShowRunFailure (err_message error)
      else if (0 <? String.length stderr)%nat then ShowFailure stderr
      else match JSON_parse stdout with
           | Some messages => SetEntries (map toDiagnosticEntry messages)
           | None => UncaughtSyntaxError
           end
  | None =>
      if (0 <? String.length stderr)%nat then ShowFailure stderr
      else match JSON_parse stdout with
           | Some messages => SetEntries (map toDiagnosticEntry messages)
           | None => UncaughtSyntaxError
           end
  end.

End Linting.

(* ------------------------------------------------------------------ *)
(** ** Refactoring *)

(** Effects visible to the user or the host. *)
Inductive Effect :=
  | ShowErrorMessage (message : string)
  | ShowWarningMessage (message : string)
  | ApplyEdit (document_uri : string) (newText : string)
  | StartLinting
  | RegisterRefactoring.

Inductive Settled (A : Type) := Resolved (a : A) | Rejected (e : JsError).
Arguments Resolved {A} a.
Arguments Rejected {A} e.

(** Outcome of [tmp.file] plus writing the contents. *)
Inductive TmpResult := TmpOk (path : string) | TmpErr (e : JsError).

Definition dq : string := String (ascii_of_nat 34) EmptyString.

(** The envelope [[("", refactorings)]]. *)
Definition refactor_envelope (refactorings : string) : string :=
  String.append "[(" (String.append dq (String.append dq
    (String.append ", " (String.append refactorings ")]")))).

Definition refactor_run (code path : string) : Run :=
  runInWorkspace (stackExec ["refactor"; "--refact-file"; path]) (Some code).

(** [refactor] of extension.ts: the observable ends with an error, or gives
    the refactored code ([None] for [null]). *)
Definition refactor (code : string) (tmp : TmpResult) (r : ExecResult)
  : JsError + option string :=
  match tmp with
  | TmpErr e => inl e
  | TmpOk path =>
      match run_result (refactor_run code path) r with
      | inl e => inl e
      | inr stdout =>
          if (0 <? String.length stdout)%nat
          then inr (Some (JsStr.slice_0_m1 stdout))
          else inr None
      end
  end.

(** [applyRefactorings] of extension.ts. [edit_ok] is the value of
    [vscode.workspace.applyEdit(edit)]. Returns the effects and how the
    promise settles. *)
Definition applyRefactorings (document : TextDocument) (refactorings : string)
    (tmp : TmpResult) (r : ExecResult) (edit_ok : bool)
  : list Effect * Settled bool :=
  match refactor (getText document) tmp r with
  | inl error =>
      ([ShowErrorMessage (String.append "Failed to refactor hlint suggestions: "
                            (err_message error))], Rejected error)
  | inr code =>
      (* .filter((code) => !!code) *)
      match code with
      | Some c =>
          if JsStr.truthy c then ([ApplyEdit (uri document) c], Resolved edit_ok)
          else ([], Resolved false)          (* .defaultIfEmpty(false) *)
      | None => ([], Resolved false)
      end
  end.

(* ------------------------------------------------------------------ *)
(** ** Version gate and activation *)

Inductive VersionPattern :=
  | HLintVersionPattern        (* /^HLint v([^,]+),/ *)
  | ApplyRefactVersionPattern. (* /^v(\d+\.\d+\.\d+)/ *)

Fixpoint take_until_comma (l : list ascii) : option (list ascii) :=
  match l with
  | [] => None
  | ","%char :: _ => Some []
  | c :: r => option_map (cons c) (take_until_comma r)
  end.

Definition digits_prefix (l : list ascii) : list ascii :=
  firstn (List.length (fst (JsStr.take_digits l))) l.

(** [stdout.match(pattern)], reduced to the first group. *)
Definition match_version (p : VersionPattern) (stdout : string) : option string :=
  let l := list_ascii_of_string stdout in
  match p with
  | HLintVersionPattern =>
      match l with
      | "H"%char :: "L"%char :: "i"%char :: "n"%char :: "t"%char :: " "%char
          :: "v"%char :: rest =>
          match take_until_comma rest with
          | Some (c :: cs) => Some (string_of_list_ascii (c :: cs))
          | _ => None
          end
      | _ => None
      end
  | ApplyRefactVersionPattern =>
      match l with
      | "v"%char :: rest =>
          let d1 := digits_prefix rest in
          let r1 := skipn (List.length d1) rest in
          match d1, r1 with
          | _ :: _, "."%char :: r1' =>
              let d2 := digits_prefix r1' in
              match d2, skipn (List.length d2) r1' with
              | _ :: _, "."%char :: r2' =>
                  let d3 := digits_prefix r2' in
                  match d3 with
                  | _ :: _ => Some (string_of_list_ascii
                                (app d1 ("."%char :: app d2 ("."%char :: d3))))
                  | [] => None
                  end
              | _, _ => None
              end
          | _, _ => None
          end
      | _ => None
      end
  end.

(** [getExpectedVersion] of extension.ts (loose comparison); a
    [TypeError] thrown by [semver.satisfies] inside [map] ends the
    observable with that error. *)
Definition getExpectedVersion (program : string) (command : list string)
    (pattern : VersionPattern) (range : string) (r : ExecResult)
  : JsError + string :=
  match run_result (runInWorkspace command None) r with
  | inl e => inl e
  | inr stdout =>
      match match_version pattern stdout with
      | Some version =>
          match Semver.satisfies version range true with
          | inl e => inl e
          | inr true => inr version
          | inr false =>
              inl (VersionError (String.append program
                     (String.append " version " (String.append version
                       (String.append " did not meet requirements " range)))))
          end
      | None =>
          inl (VersionError (String.append "Failed to extract "
                 (String.append program (String.append " version from " stdout))))
      end
  end.

Definition enableLinting (r : ExecResult) : JsError + string :=
  getExpectedVersion "HLint" (stackExec ["hlint"; "--version"])
    HLintVersionPattern VERSION_RANGES_hlint r.

Definition enableRefactoring_check (r : ExecResult) : JsError + string :=
  getExpectedVersion "apply-refact" (stackExec ["refactor"; "--version"])
    ApplyRefactVersionPattern VERSION_RANGES_applyRefact r.

(** The [catch] of [enableRefactoring]: [error.name instanceof VersionError]
    tests the string [error.name]. [None] rethrows. *)
Definition enableRefactoring_catch (error : JsError) : option Effect :=
  if instanceof (JsString (err_name error)) VersionError_class then
    Some (ShowWarningMessage (String.append "HLint suggestions not available: "
                                (err_message error)))
  else if (match err_code error with
           | Some (JsString c) => String.eqb c "ENOENT"
           | _ => false
           end) then
    Some (ShowErrorMessage "HLint suggestions not available: apply-refact missing, please install the latest release from Hackage or Stackage")
  else None.

(** [activate] of extension.ts:
    [Observable.concat(enableLinting, enableRefactoring).toPromise()]; the
    [do] callbacks start linting and register the refactoring command and
    code action provider. The promise resolves with the last value. *)
Definition activate (hlint_r refact_r : ExecResult)
  : list Effect * Settled string :=
  match enableLinting hlint_r with
  | inl e => ([], Rejected e)
  | inr hlint_version =>
      match enableRefactoring_check refact_r with
      | inr v => ([StartLinting; RegisterRefactoring], Resolved v)
      | inl error =>
          match enableRefactoring_catch error with
          | Some eff => ([StartLinting; eff], Resolved hlint_version)
          | None => ([StartLinting], Rejected error)
          end
      end
  end.

(* ------------------------------------------------------------------ *)
(** ** Code actions *)

Definition APPLY_REFACTORINGS : string := "hlint.applyRefactorings".

(** A [vscode.Command] as the provider builds it. *)
Record Command := mkCommand {
  command_arguments : TextDocument * string;
  command_command : string;
  command_title : string
}.

(** [provideCodeActions] registered by
    [registerRefactoringProvidersAndCommands] (extension.ts): one command per
    diagnostic from HLint with a truthy [code]. *)
Definition provideCodeActions (document : TextDocument)
    (actionContext_diagnostics : list Diagnostic) : list Command :=
  map (fun diagnostic =>
         mkCommand (document, diag_code diagnostic) APPLY_REFACTORINGS
           (String.append "Fix: " (diag_message diagnostic)))
    (List.filter (fun d => (String.eqb (diag_source d) HLINT_SOURCE
                            && JsStr.truthy (diag_code d))%bool)
       actionContext_diagnostics).

(* ------------------------------------------------------------------ *)
(** ** The promise based revision (part_001) *)

Module Part001.

(** [runInWorkspace] of part_001: [if (stdin) child.stdin.write(stdin, () =>
    child.stdin.end())]; a failure rejects with a new [Error] whose message
    carries standard error ([${command}] of an array joins its elements with
    commas). *)
Definition runInWorkspace (command : list string) (stdin : option string) : Run :=
  mkRun command
    (match stdin with
     | Some s => if JsStr.truthy s then [StdinEnd s] else []
     | None => []
     end)
    (fun r => match execFile_error command r with
              | Some error =>
                  inl (jsError (String.append "Failed to run "
                        (String.append (JsStr.join "," command)
                          (String.append ": " (String.append (err_message error)
                            (String.append " (stderr: "
                              (String.append (snd (exec_output r)) ")")))))))
              | None => inr (fst (exec_output r))
              end).

(** The [refactor] run of part_001's [applyRefactorings]. *)
Definition refactor_file_run (document : TextDocument) (refactorings : string) : Run :=
  runInWorkspace ["refactor"; fileName document] (Some (refactor_envelope refactorings)).

(** [applyRefactorings] of part_001. [save] is how [document.save()]
    settles: it is awaited before the [try], so its rejection rejects the
    command. Then [refactor <fileName>] gets the envelope on standard input;
    its failure is caught, shown, and gives [false]; otherwise its whole
    output replaces the document and the promise of [applyEdit] ([edit]) is
    returned without [await]: the command settles as it settles, a rejection
    escaping the [catch]. *)
Definition applyRefactorings (document : TextDocument) (refactorings : string)
    (save : Settled bool) (r : ExecResult) (edit : Settled bool)
  : list Effect * Settled bool :=
  match save with
  | Rejected e => ([], Rejected e)
  | Resolved _ =>
      match run_result (refactor_file_run document refactorings) r with
      | inl error => ([ShowErrorMessage (err_message error)], Resolved false)
      | inr refactored => ([ApplyEdit (uri document) refactored], edit)
      end
  end.

Definition HLINT_VERSION_REQUIREMENT : string := ">=2.0.8 || <2 >=1.9.25".

(** [checkHLintVersion] of part_001: a failure to run hlint, or a
    [TypeError] thrown by [semver.satisfies], rejects; otherwise [inr None]
    is [null] (version fine) and [inr (Some m)] the version error's message.
    The comparison is not loose. *)
Definition checkHLintVersion (r : ExecResult) : JsError + option string :=
  match run_result (runInWorkspace ["hlint"; "--version"] None) r with
  | inl e => inl e
  | inr stdout =>
      match match_version HLintVersionPattern stdout with
      | Some hlintVersion =>
          match Semver.satisfies hlintVersion HLINT_VERSION_REQUIREMENT false with
          | inl e => inl e
          | inr true => inr None
          | inr false => inr (Some (String.append "HLint version "
                 (String.append hlintVersion
                   (String.append " did not meet requirements: "
                     (String.append HLINT_VERSION_REQUIREMENT
                        "! Please install the latest hlint version from Stackage or Hackage.")))))
          end
      | None => inr (Some (String.append "Failed to parse HLint version from output: "
                             stdout))
      end
  end.

(** [activate] of part_001: on a version error show it and return; else
    register the code action provider and the command
    ([RegisterRefactoring]), then subscribe to save/open/close and lint the
    open documents ([StartLinting]). *)
Definition activate (r : ExecResult) : list Effect * Settled unit :=
  match checkHLintVersion r with
  | inl e => ([], Rejected e)
  | inr (Some message) => ([ShowErrorMessage message], Resolved tt)
  | inr None => ([RegisterRefactoring; StartLinting], Resolved tt)
  end.

End Part001.

(* ------------------------------------------------------------------ *)
(** ** Concrete inputs *)

Definition msg_at (f : string) : IHLintMessage :=
  mkHLintMessage "Main" "main" "Warning" "Redundant bracket" f 3 5 3 20
    "(foo bar)" "foo bar" [] "[(SrcSpan 3 5 3 20, Bracket)]".

Definition docA : TextDocument :=
  mkTextDocument "file:///A.hs" "/A.hs" "haskell" "main = print (foo bar)" false.

(** A [JSON.parse] that agrees with the real one on the outputs used
    below: ["[]"] is the empty list, ["fresh"] stands for the JSON text of
    the messages for ["-"], ["/a.hs"] and ["/b.hs"]. *)
Definition parse_demo (s : string) : option (list IHLintMessage) :=
  if String.eqb s "[]" then Some []
  else if String.eqb s "fresh" then Some [msg_at "-"; msg_at "/a.hs"; msg_at "/b.hs"]
  else None.

(* ------------------------------------------------------------------ *)
(** ** Lemmas about the lint pipeline *)

Section LintLemmas.
Variable JSON_parse : string -> option (list IHLintMessage).

Lemma lint_step_completed_lookup (s : LintState) n d r :
  inflight s !! n = Some d ->
  diagnostics (lint_step JSON_parse s (Completed n r)) !! uri d
  = publish_outcome JSON_parse d r.
Proof.
  intros H. simpl. rewrite H. unfold complete_cycle, publish_outcome.
  destruct (lintDocument JSON_parse d r); simpl.
  - apply lookup_delete_eq.
  - apply lookup_insert_eq.
Qed.

Lemma lint_step_completed_inflight (s : LintState) n d r :
  inflight s !! n = Some d ->
  inflight (lint_step JSON_parse s (Completed n r)) = delete n (inflight s).
Proof.
  intros H. simpl. rewrite H. unfold complete_cycle.
  destruct (lintDocument JSON_parse d r); reflexivity.
Qed.

Lemma lint_step_closed_lookup (s : LintState) d :
  diagnostics (lint_step JSON_parse s (Closed d)) !! uri d = None.
Proof. apply lookup_delete_eq. Qed.

Lemma lint_step_closed_inflight (s : LintState) d :
  inflight (lint_step JSON_parse s (Closed d)) = inflight s.
Proof. reflexivity. Qed.

Lemma in_map_filter_iff (p : IHLintMessage -> bool) (ms : list IHLintMessage) x :
  In x (map toDiagnostic (List.filter p ms)) <->
  exists m, In m ms /\ p m = true /\ x = toDiagnostic m.
Proof.
  rewrite in_map_iff. split.
  - intros [m [<- Hm]]. apply filter_In in Hm. firstorder.
  - intros (m & Hin & Hp & ->). exists m. split; [done|]. by apply filter_In.
Qed.

End LintLemmas.

(* ------------------------------------------------------------------ *)
(** ** Digit runs and a tactic for matching literal prefixes *)

Definition is_digit (c : ascii) : Prop := JsStr.digit_val c <> None.

Definition no_digit_start (l : list ascii) : Prop :=
  match l with c :: _ => JsStr.digit_val c = None | [] => True end.

Ltac peel_char :=
  match goal with
  | |- context [match ?l with [] => _ | _ :: _ => _ end] =>
      let c := fresh "c" in let l' := fresh "l" in
      destruct l as [|c l']; [simpl; intros ?H; discriminate H|];
      destruct c as [[] [] [] [] [] [] [] []]; simpl; try (intros ?H; discriminate H)
  end.

(* ------------------------------------------------------------------ *)
(** * Claims *)

(** ** C1: the version gate *)

(** The five verdicts the claim states, [3.0.0] rejected among them. *)
Definition C1_stated (loose : bool) : Prop :=
  Semver.satisfies "2.0.7" VERSION_RANGES_hlint loose = inr false /\
  Semver.satisfies "2.0.8" VERSION_RANGES_hlint loose = inr true /\
  Semver.satisfies "1.9.25" VERSION_RANGES_hlint loose = inr true /\
  Semver.satisfies "1.9.30" VERSION_RANGES_hlint loose = inr true /\
  Semver.satisfies "3.0.0" VERSION_RANGES_hlint loose = inr false.

(** C1 (counterexample): with loose comparison, [3.0.0] satisfies
    [>=2.0.8 || <2 >=1.9.25] through its first alternative, so the stated
    verdicts do not all hold. *)
Lemma C1_version_3_0_0_accepted : ~ C1_stated true.
Proof.
  unfold C1_stated. vm_compute. intros (_ & _ & _ & _ & H). discriminate H.
Qed.

(** C1 (amended): checked against [>=2.0.8 || <2 >=1.9.25], loosely or
    not, [2.0.7] is rejected and [2.0.8], [1.9.25], [1.9.30] and [3.0.0] are
    accepted. In general, with loose comparison, the empty string is
    rejected; any other string that [new SemVer] refuses makes [satisfies]
    throw that [TypeError] (as [2.1] does); a parsed version passes exactly
    when it has no prerelease and it is at least 2.0.8, or below 2.0.0 and
    at least 1.9.25, build metadata being ignored ([2.0.9+build] passes). *)
Theorem C1_version_gate_verdicts :
  (forall loose : bool,
     Semver.satisfies "2.0.7" VERSION_RANGES_hlint loose = inr false /\
     Semver.satisfies "2.0.8" VERSION_RANGES_hlint loose = inr true /\
     Semver.satisfies "1.9.25" VERSION_RANGES_hlint loose = inr true /\
     Semver.satisfies "1.9.30" VERSION_RANGES_hlint loose = inr true /\
     Semver.satisfies "3.0.0" VERSION_RANGES_hlint loose = inr true) /\
  Semver.satisfies "2.0.9+build" VERSION_RANGES_hlint true = inr true /\
  Semver.satisfies "2.1" VERSION_RANGES_hlint true
    = inl (TypeError "Invalid Version: 2.1") /\
  (forall s : string,
     Semver.satisfies s VERSION_RANGES_hlint true =
     if String.eqb s "" then inr false
     else match Semver.new_SemVer true s with
          | inl e => inl e
          | inr v =>
              let w := Semver.sv_version v in
              inr (match Semver.sv_prerelease v with
                   | [] => (Semver.cmp w Semver.OpGe (Semver.mkVersion 2 0 8)
                            || (Semver.cmp w Semver.OpLt (Semver.mkVersion 2 0 0)
                                && Semver.cmp w Semver.OpGe (Semver.mkVersion 1 9 25)))%bool
                   | _ => false
                   end)
          end).
Proof.
  split; [|split; [|split]].
  - intros []; vm_compute; repeat split.
  - vm_compute. reflexivity.
  - vm_compute. reflexivity.
  - intros s. unfold Semver.satisfies.
    rewrite range_parse_hlint.
    destruct (String.eqb s ""); [reflexivity|].
    destruct (Semver.new_SemVer true s) as [e|v]; [reflexivity|].
    unfold Semver.range_test, Semver.test_set. simpl.
    destruct (Semver.sv_prerelease v); simpl;
      rewrite ?andb_true_r, ?andb_false_r, ?orb_false_r; reflexivity.
Qed.

(** ** C2: two lint cycles of one document in flight *)

(** C2 (counterexample): cycle 0 and then cycle 1 are dispatched for
    [docA]; cycle 1 ends first with the fresh messages, cycle 0 ends last
    with an empty list. The collection then holds cycle 0's stale empty set,
    not the set of the later dispatched cycle 1: the slower, older response
    overwrote the fresher one. *)
Lemma C2_stale_cycle_overwrites_fresh :
  let s := lint_run parse_demo initial_state
             [Debounced docA; Debounced docA;
              Completed 1 (Exited 0 "fresh" ""); Completed 0 (Exited 0 "[]" "")] in
  diagnostics s !! uri docA = publish_outcome parse_demo docA (Exited 0 "[]" "") /\
  (diagnostics s !! uri docA) <> publish_outcome parse_demo docA (Exited 0 "fresh" "").
Proof. vm_compute. split; [reflexivity | discriminate]. Qed.

(** C2 (amended): when two cycles [i] and [j] of one document are in
    flight and [i] ends before [j], whatever their dispatch order, the
    document's entry afterwards is exactly what [j] alone publishes (its
    filtered diagnostics, or nothing if it failed): the cycle that
    completes last wins, as a whole set. *)
Theorem C2_last_completion_wins (JSON_parse : string -> option (list IHLintMessage))
    (s : LintState) (i j : nat) (di dj : TextDocument) (ri rj : ExecResult) :
  i <> j ->
  inflight s !! i = Some di ->
  inflight s !! j = Some dj ->
  uri di = uri dj ->
  diagnostics
    (lint_step JSON_parse (lint_step JSON_parse s (Completed i ri)) (Completed j rj))
    !! uri di
  = publish_outcome JSON_parse dj rj.
Proof.
  intros Hij Hi Hj Hu.
  rewrite Hu. apply lint_step_completed_lookup.
  rewrite (lint_step_completed_inflight JSON_parse s i di ri Hi).
  rewrite lookup_delete_ne; [exact Hj | congruence].
Qed.

Lemma C2_last_completion_wins_witness :
  let s := lint_run parse_demo initial_state [Debounced docA; Debounced docA] in
  (1 <> 0 /\ inflight s !! 1 = Some docA /\ inflight s !! 0 = Some docA /\
   uri docA = uri docA) /\
  diagnostics (lint_step parse_demo (lint_step parse_demo s
                 (Completed 1 (Exited 0 "fresh" ""))) (Completed 0 (Exited 0 "[]" "")))
    !! uri docA
  = publish_outcome parse_demo docA (Exited 0 "[]" "").
Proof.
  split; [vm_compute; repeat split; discriminate|].
  apply (C2_last_completion_wins parse_demo _ 1 0 docA docA);
    [discriminate | reflexivity | reflexivity | reflexivity].
Defined.

(** ** C3: closing a document *)

(** C3 (counterexample): a cycle for [docA] is dispatched, the document is
    closed, then the cycle ends successfully: the diagnostics come back. *)
Lemma C3_late_result_resurrects :
  diagnostics (lint_run parse_demo initial_state
                 [Debounced docA; Closed docA; Completed 0 (Exited 0 "fresh" "")])
    !! uri docA
  = Some [toDiagnostic (msg_at "-")].
Proof. vm_compute. reflexivity. Qed.

(** C3 (amended): closing a document removes its diagnostic set at once;
    a cycle of that document still in flight that ends after the close
    writes its outcome as any other completion does (a successful one sets
    the diagnostics again, a failed one deletes them). *)
Theorem C3_close_then_late_completion (JSON_parse : string -> option (list IHLintMessage))
    (s : LintState) (d d' : TextDocument) (i : nat) (r : ExecResult) :
  inflight s !! i = Some d' ->
  uri d' = uri d ->
  diagnostics (lint_step JSON_parse s (Closed d)) !! uri d = None /\
  diagnostics (lint_step JSON_parse (lint_step JSON_parse s (Closed d)) (Completed i r))
    !! uri d
  = publish_outcome JSON_parse d' r.
Proof.
  intros Hi Hu. split.
  - apply lint_step_closed_lookup.
  - rewrite <- Hu. apply lint_step_completed_lookup.
    rewrite lint_step_closed_inflight. exact Hi.
Qed.

Lemma C3_close_then_late_completion_witness :
  let s := lint_run parse_demo initial_state [Debounced docA] in
  (inflight s !! 0 = Some docA /\ uri docA = uri docA) /\
  (diagnostics (lint_step parse_demo s (Closed docA)) !! uri docA = None /\
   diagnostics (lint_step parse_demo (lint_step parse_demo s (Closed docA))
                  (Completed 0 (Exited 0 "fresh" ""))) !! uri docA
   = publish_outcome parse_demo docA (Exited 0 "fresh" "")).
Proof.
  split; [split; reflexivity|].
  apply (C3_close_then_late_completion parse_demo _ docA docA 0);
    reflexivity.
Defined.

(** ** C4: standard error of the linter *)

(** C4 (counterexample): the linter exits with status 0 and writes a
    warning on standard error; the lint of extension.ts still succeeds with
    the parsed standard output. *)
Lemma C4_stderr_ignored_on_success :
  lintDocument parse_demo docA (Exited 0 "fresh" "warning: ignored")
  = inr [msg_at "-"; msg_at "/a.hs"; msg_at "/b.hs"].
Proof. vm_compute. reflexivity. Qed.

(** C4 (amended): in the standard input lint path ([runInWorkspace]),
    standard error is not consulted: with exit status 0 the outcome is the
    parse of standard output whatever standard error holds. In the file
    based revision (part_000), non-empty standard error makes the callback
    report a failure whenever no system error occurred, even with exit
    status 0. *)
Theorem C4_stderr_handling (JSON_parse : string -> option (list IHLintMessage))
    (document : TextDocument) (status : Z) (stdout stderr : string) :
  stderr <> "" ->
  lintDocument JSON_parse document (Exited 0 stdout stderr) =
    match JSON_parse stdout with
    | Some ms => inr ms
    | None => inl SyntaxError
    end /\
  lintDocument_part000_callback JSON_parse document (Exited status stdout stderr)
  = ShowFailure stderr.
Proof.
  intros Hne. split; [reflexivity|].
  assert (Hlen : (0 <? String.length stderr)%nat = true).
  { destruct stderr; [congruence|reflexivity]. }
  unfold lintDocument_part000_callback. simpl.
  destruct (Z.eqb status 0); simpl; rewrite Hlen; reflexivity.
Qed.

Lemma C4_stderr_handling_witness :
  "warning: ignored" <> "" /\
  (lintDocument parse_demo docA (Exited 0 "fresh" "warning: ignored") =
     match parse_demo "fresh" with Some ms => inr ms | None => inl SyntaxError end /\
   lintDocument_part000_callback parse_demo docA (Exited 0 "fresh" "warning: ignored")
   = ShowFailure "warning: ignored").
Proof.
  split; [discriminate|].
  apply C4_stderr_handling. discriminate.
Defined.

(** ** C5: failure of the refactoring tool's version check *)

Definition hlint_version_output : ExecResult :=
  Exited 0 "HLint v2.0.9, (C) Neil Mitchell 2006-2017" "".

(** C5 (code_bug): once linting has been enabled, an apply-refact version
    check that fails with a [VersionError] (version unparsable or below
    [>= 0.3]) is not caught: the test [error.name instanceof VersionError]
    is on a string and never holds, the error has no [ENOENT] code, so no
    warning is shown and the activation promise is rejected. At the input
    [v0.2.0.0] this is what happens. *)
Theorem C5_refactor_version_error_rejects_activation (refact_r : ExecResult) (msg : string) :
  enableRefactoring_check refact_r = inl (VersionError msg) ->
  activate hlint_version_output refact_r
  = ([StartLinting], Rejected (VersionError msg)).
Proof.
  intros H. unfold activate.
  replace (enableLinting hlint_version_output) with (inr "2.0.9" : JsError + string)
    by (vm_compute; reflexivity).
  rewrite H. reflexivity.
Qed.

Lemma C5_refactor_version_error_rejects_activation_witness :
  enableRefactoring_check (Exited 0 "v0.2.0.0" "") =
    inl (VersionError "apply-refact version 0.2.0 did not meet requirements >= 0.3") /\
  activate hlint_version_output (Exited 0 "v0.2.0.0" "")
  = ([StartLinting],
     Rejected (VersionError "apply-refact version 0.2.0 did not meet requirements >= 0.3")).
Proof.
  split; [vm_compute; reflexivity|].
  apply C5_refactor_version_error_rejects_activation.
  vm_compute. reflexivity.
Defined.

(** ** C6: a failed lint cycle clears the document *)

(** C6: a cycle of a document that ends in a spawn failure, a non-zero exit
    status or output [JSON.parse] rejects deletes the document's entry, so
    the document has no diagnostics afterwards, whatever it had before. *)
Theorem C6_failed_cycle_clears (JSON_parse : string -> option (list IHLintMessage))
    (s : LintState) (i : nat) (d : TextDocument) (r : ExecResult) :
  inflight s !! i = Some d ->
  ((exists c, r = SpawnError c) \/
   (exists status out err, r = Exited status out err /\ status <> 0%Z) \/
   (exists out err, r = Exited 0 out err /\ JSON_parse out = None)) ->
  diagnostics (lint_step JSON_parse s (Completed i r)) !! uri d = None /\
  get_diagnostics (lint_step JSON_parse s (Completed i r)) (uri d) = [].
Proof.
  intros Hi Hfail.
  assert (Hpub : publish_outcome JSON_parse d r = None).
  { unfold publish_outcome, lintDocument, lintDocument_run, runInWorkspace; simpl.
    destruct Hfail as [[c ->] | [(st & out & err & -> & Hst) | (out & err & -> & Hp)]];
      simpl.
    - reflexivity.
    - apply Z.eqb_neq in Hst. rewrite Hst. reflexivity.
    - rewrite Hp. reflexivity. }
  unfold get_diagnostics.
  rewrite (lint_step_completed_lookup JSON_parse s i d r Hi), Hpub.
  split; reflexivity.
Qed.

Lemma C6_failed_cycle_clears_witness :
  let s := lint_run parse_demo initial_state
             [Debounced docA; Completed 0 (Exited 0 "fresh" ""); Debounced docA] in
  get_diagnostics s (uri docA) <> [] /\
  inflight s !! 1 = Some docA /\
  (diagnostics (lint_step parse_demo s (Completed 1 (Exited 1 "" "crash"))) !! uri docA = None /\
   get_diagnostics (lint_step parse_demo s (Completed 1 (Exited 1 "" "crash"))) (uri docA) = []).
Proof.
  split; [vm_compute; discriminate|].
  split; [reflexivity|].
  apply C6_failed_cycle_clears; [reflexivity|].
  right. left. exists 1%Z, "", "crash". split; [reflexivity | discriminate].
Defined.

(** ** C7: refactoring with nothing to do *)

(** C7: when [refactor] exits normally with empty output or with the one
    newline it appends, [applyRefactorings] shows nothing, applies no edit
    and resolves with [false]. *)
Theorem C7_refactor_noop (document : TextDocument) (refactorings path stdout stderr : string)
    (edit_ok : bool) :
  stdout = "" \/ stdout = newline ->
  applyRefactorings document refactorings (TmpOk path) (Exited 0 stdout stderr) edit_ok
  = ([], Resolved false).
Proof.
  intros [-> | ->]; reflexivity.
Qed.

Lemma C7_refactor_noop_witness :
  (newline = "" \/ newline = newline) /\
  applyRefactorings docA "[]" (TmpOk "/tmp/refact") (Exited 0 newline "") true
  = ([], Resolved false).
Proof.
  split; [right; reflexivity|].
  apply C7_refactor_noop. right. reflexivity.
Defined.

(** ** C8: only the linted document's messages are published *)

(** C8: after a successful cycle, the stdin based pipeline of extension.ts
    stores for the document, saved or not, exactly the diagnostics of the
    messages whose [file] is ["-"]; the file based [lintDocument] of
    part_001, which only lints saved documents, stores exactly those whose
    [file] is the document's file name. *)
Theorem C8_publish_only_own_file (JSON_parse : string -> option (list IHLintMessage))
    (s : LintState) (i : nat) (d : TextDocument) (out err : string)
    (ms : list IHLintMessage) (diags : gmap string (list Diagnostic)) :
  inflight s !! i = Some d ->
  JSON_parse out = Some ms ->
  (diagnostics (lint_step JSON_parse s (Completed i (Exited 0 out err))) !! uri d
   = Some (map toDiagnostic (List.filter (fun m => String.eqb (file m) "-") ms)) /\
   (forall x, In x (get_diagnostics
                      (lint_step JSON_parse s (Completed i (Exited 0 out err))) (uri d))
              <-> exists m, In m ms /\ file m = "-" /\ x = toDiagnostic m)) /\
  (isDirty d = false ->
   lintDocument_file JSON_parse d true (Exited 0 out err) diags !! uri d
   = Some (map toDiagnostic
             (List.filter (fun m => String.eqb (file m) (fileName d)) ms)) /\
   (forall x, In x (default [] (lintDocument_file JSON_parse d true
                                  (Exited 0 out err) diags !! uri d))
              <-> exists m, In m ms /\ file m = fileName d /\ x = toDiagnostic m)).
Proof.
  intros Hi Hp.
  assert (H1 : diagnostics (lint_step JSON_parse s (Completed i (Exited 0 out err)))
                 !! uri d
               = Some (map toDiagnostic (List.filter (fun m => String.eqb (file m) "-") ms))).
  { rewrite (lint_step_completed_lookup JSON_parse s i d _ Hi).
    unfold publish_outcome, lintDocument. simpl. rewrite Hp. reflexivity. }
  split; [split|intros Hd].
  - exact H1.
  - intros x. unfold get_diagnostics. rewrite H1. simpl.
    rewrite in_map_filter_iff. setoid_rewrite String.eqb_eq. reflexivity.
  - assert (H2 : lintDocument_file JSON_parse d true (Exited 0 out err) diags !! uri d
                 = Some (map toDiagnostic
                           (List.filter (fun m => String.eqb (file m) (fileName d)) ms))).
    { unfold lintDocument_file. rewrite Hd. simpl. rewrite Hp.
      apply lookup_insert_eq. }
    split.
    + exact H2.
    + intros x. rewrite H2. simpl.
      rewrite in_map_filter_iff. setoid_rewrite String.eqb_eq. reflexivity.
Qed.

(** The spec's example: messages for ["-"], ["/a.hs"] and ["/b.hs"], for
    a saved document and for one with unsaved changes. *)
Lemma C8_publish_only_own_file_witness :
  let dirtyA := mkTextDocument "file:///A.hs" "/A.hs" "haskell" "main = print y" true in
  let s := lint_run parse_demo initial_state [Debounced docA] in
  let s' := lint_run parse_demo initial_state [Debounced dirtyA] in
  (inflight s !! 0 = Some docA /\
   parse_demo "fresh" = Some [msg_at "-"; msg_at "/a.hs"; msg_at "/b.hs"] /\
   diagnostics (lint_step parse_demo s (Completed 0 (Exited 0 "fresh" ""))) !! uri docA
   = Some [toDiagnostic (msg_at "-")]) /\
  (inflight s' !! 0 = Some dirtyA /\
   diagnostics (lint_step parse_demo s' (Completed 0 (Exited 0 "fresh" ""))) !! uri dirtyA
   = Some [toDiagnostic (msg_at "-")]).
Proof.
  intros dirtyA s s'.
  destruct (C8_publish_only_own_file parse_demo s 0 docA "fresh" ""
              [msg_at "-"; msg_at "/a.hs"; msg_at "/b.hs"] ∅
              ltac:(reflexivity) ltac:(reflexivity)) as [[H _] _].
  destruct (C8_publish_only_own_file parse_demo s' 0 dirtyA "fresh" ""
              [msg_at "-"; msg_at "/a.hs"; msg_at "/b.hs"] ∅
              ltac:(reflexivity) ltac:(reflexivity)) as [[H' _] _].
  split; (split; [reflexivity|]).
  - split; [reflexivity|]. rewrite H. reflexivity.
  - rewrite H'. reflexivity.
Defined.

(** ** C9: coordinate translation *)

(** C9: the range of [toDiagnostic m] is HLint's four 1-based numbers each
    minus one. *)
Theorem C9_range_minus_one (m : IHLintMessage) :
  diag_range (toDiagnostic m)
  = mkRange (startLine m - 1) (startColumn m - 1) (endLine m - 1) (endColumn m - 1).
Proof. reflexivity. Qed.

(** ** C10: empty standard input *)

(** C10: [runInWorkspace] ends (writes and closes) the child's standard
    input exactly when the given text is non-empty; for the empty text it
    does nothing to the stream. So linting a document closes HLint's
    standard input iff the document's text is non-empty, and an empty
    document leaves it open. *)
Theorem C10_empty_stdin_not_closed (command : list string) (text : string)
    (document : TextDocument) :
  run_stdin (runInWorkspace command (Some text))
    = (if String.eqb text "" then [] else [StdinEnd text]) /\
  stdin_closed (run_stdin (lintDocument_run document))
    = negb (String.eqb (getText document) "").
Proof.
  unfold lintDocument_run, runInWorkspace, JsStr.truthy; simpl.
  split.
  - destruct (String.eqb text ""); reflexivity.
  - destruct (String.eqb (getText document) ""); reflexivity.
Qed.

(* ------------------------------------------------------------------ *)
(** * Further properties of the code *)

(** ** Helper lemmas on strings *)

Lemma string_length_append (a b : string) :
  String.length (String.append a b) = String.length a + String.length b.
Proof. induction a as [|c a IH]; simpl; [reflexivity | rewrite IH; reflexivity]. Qed.

Lemma string_append_assoc (a b c : string) :
  String.append (String.append a b) c = String.append a (String.append b c).
Proof. induction a as [|x a IH]; [reflexivity | exact (f_equal (String x) IH)]. Qed.

Lemma substring_0_length_append (a b : string) :
  String.substring 0 (String.length a) (String.append a b) = a.
Proof.
  induction a as [|c a IH]; simpl.
  - destruct b; reflexivity.
  - rewrite IH. reflexivity.
Qed.

(** [s.slice(0, -1)] of a text ending in one character gives the text
    before it. *)
Lemma slice_0_m1_snoc (o : string) (c : ascii) :
  JsStr.slice_0_m1 (String.append o (String c EmptyString)) = o.
Proof.
  unfold JsStr.slice_0_m1. rewrite string_length_append. simpl.
  replace (String.length o + 1 - 1) with (String.length o) by lia.
  apply substring_0_length_append.
Qed.

Lemma list_ascii_of_string_append (a b : string) :
  list_ascii_of_string (String.append a b)
  = app (list_ascii_of_string a) (list_ascii_of_string b).
Proof. induction a as [|c a IH]; simpl; [reflexivity | rewrite IH; reflexivity]. Qed.

Lemma string_of_list_ascii_app (a b : list ascii) :
  string_of_list_ascii (app a b)
  = String.append (string_of_list_ascii a) (string_of_list_ascii b).
Proof. induction a as [|c a IH]; simpl; [reflexivity | rewrite IH; reflexivity]. Qed.

Lemma truthy_false_iff (s : string) : JsStr.truthy s = false <-> s = "".
Proof.
  unfold JsStr.truthy. rewrite negb_false_iff. apply String.eqb_eq.
Qed.

(** ** Code actions *)

(** The code actions offered for the diagnostics of [toDiagnostic]: one
    [hlint.applyRefactorings] command per HLint message with non-empty
    [refactorings], in message order, whose arguments are the document and
    the message's [refactorings] text unchanged, titled ["Fix: "] and the
    diagnostic's message. Messages without refactorings give no action. *)
Theorem code_actions_of_hlint_messages (document : TextDocument)
    (ms : list IHLintMessage) :
  provideCodeActions document (map toDiagnostic ms)
  = map (fun m => mkCommand (document, refactorings m) APPLY_REFACTORINGS
                    (String.append "Fix: " (diag_message (toDiagnostic m))))
        (List.filter (fun m => JsStr.truthy (refactorings m)) ms).
Proof.
  induction ms as [|m ms IH]; [reflexivity|].
  unfold provideCodeActions in *. simpl.
  destruct (JsStr.truthy (refactorings m)); simpl; rewrite IH; reflexivity.
Qed.

(** A command is offered exactly for a diagnostic of the context whose
    source is ["hlint"] and whose code is non-empty; it passes the document
    and that code to [hlint.applyRefactorings]. Diagnostics of other
    sources never give an action. *)
Theorem code_actions_only_for_hlint_codes (document : TextDocument)
    (ds : list Diagnostic) (c : Command) :
  In c (provideCodeActions document ds) <->
  exists d, In d ds /\ diag_source d = HLINT_SOURCE /\ diag_code d <> "" /\
    c = mkCommand (document, diag_code d) APPLY_REFACTORINGS
          (String.append "Fix: " (diag_message d)).
Proof.
  unfold provideCodeActions. rewrite in_map_iff. split.
  - intros [d [<- Hd]]. apply filter_In in Hd as [Hd Hp].
    apply andb_true_iff in Hp as [Hs Ht]. apply String.eqb_eq in Hs.
    unfold JsStr.truthy in Ht. apply negb_true_iff, String.eqb_neq in Ht.
    exists d. auto.
  - intros (d & Hd & Hs & Ht & ->). exists d. split; [reflexivity|].
    apply filter_In. split; [exact Hd|]. apply andb_true_iff. split.
    + apply String.eqb_eq. exact Hs.
    + unfold JsStr.truthy. apply negb_true_iff, String.eqb_neq. exact Ht.
Qed.

(** ** Applying refactorings (extension.ts) *)

(** When [refactor] exits with status 0 and prints a non-empty text
    followed by one last character (its trailing newline), the document is
    replaced by that text without the last character, and the command
    resolves with what [applyEdit] returns. Standard error is ignored. *)
Theorem applyRefactorings_success (document : TextDocument)
    (refactorings path o err : string) (c : ascii) (edit_ok : bool) :
  o <> "" ->
  applyRefactorings document refactorings (TmpOk path)
    (Exited 0 (String.append o (String c EmptyString)) err) edit_ok
  = ([ApplyEdit (uri document) o], Resolved edit_ok).
Proof.
  intros Ho. unfold applyRefactorings, refactor. simpl.
  rewrite string_length_append. simpl.
  replace (String.length o + 1) with (S (String.length o)) by lia. simpl.
  rewrite slice_0_m1_snoc.
  destruct (JsStr.truthy o) eqn:Ht; [reflexivity|].
  apply truthy_false_iff in Ht. contradiction.
Qed.

Lemma applyRefactorings_success_witness :
  "main = print x" <> "" /\
  applyRefactorings docA "[]" (TmpOk "/tmp/r")
    (Exited 0 (String.append "main = print x" newline) "") true
  = ([ApplyEdit (uri docA) "main = print x"], Resolved true).
Proof.
  split; [discriminate|].
  apply applyRefactorings_success. discriminate.
Defined.

(** When the temporary file cannot be written, or [refactor] cannot be
    run or exits with a non-zero status, the user is shown
    ["Failed to refactor hlint suggestions: "] and the error's message, no
    edit is made, and the command's promise is rejected with that error. *)
Theorem applyRefactorings_failure (document : TextDocument) (refactorings : string)
    (tmp : TmpResult) (r : ExecResult) (edit_ok : bool) (e : JsError) :
  (tmp = TmpErr e \/
   exists path, tmp = TmpOk path /\
     execFile_error (stackExec ["refactor"; "--refact-file"; path]) r = Some e) ->
  applyRefactorings document refactorings tmp r edit_ok
  = ([ShowErrorMessage (String.append "Failed to refactor hlint suggestions: "
                          (err_message e))], Rejected e).
Proof.
  intros [-> | [path [-> He]]]; [reflexivity|].
  unfold applyRefactorings, refactor, refactor_run, runInWorkspace. simpl.
  rewrite He. reflexivity.
Qed.

Lemma applyRefactorings_failure_witness :
  let e := mkJsError Error_class "Error" (Some (JsNumber 1)) false
             (String.append "Command failed: stack exec -- refactor --refact-file /tmp/r"
                (String.append newline "boom")) in
  ((TmpOk "/tmp/r" = TmpErr e \/
    exists path, TmpOk "/tmp/r" = TmpOk path /\
      execFile_error (stackExec ["refactor"; "--refact-file"; path]) (Exited 1 "" "boom")
      = Some e) /\
   applyRefactorings docA "[]" (TmpOk "/tmp/r") (Exited 1 "" "boom") true
   = ([ShowErrorMessage (String.append "Failed to refactor hlint suggestions: "
                           (err_message e))], Rejected e)).
Proof.
  intros e.
  assert (H : TmpOk "/tmp/r" = TmpErr e \/
    exists path, TmpOk "/tmp/r" = TmpOk path /\
      execFile_error (stackExec ["refactor"; "--refact-file"; path]) (Exited 1 "" "boom")
      = Some e).
  { right. exists "/tmp/r". split; reflexivity. }
  split; [exact H|].
  apply applyRefactorings_failure. exact H.
Defined.

(** ** The catch of [enableRefactoring] *)

(** Whatever the error, the catch of [enableRefactoring] either rethrows
    it or shows the fixed "apply-refact missing" error message: it never
    shows a warning and never shows the error's own message. *)
Theorem enableRefactoring_catch_outcomes (error : JsError) :
  enableRefactoring_catch error = None \/
  (err_code error = Some (JsString "ENOENT") /\
   enableRefactoring_catch error
   = Some (ShowErrorMessage "HLint suggestions not available: apply-refact missing, please install the latest release from Hackage or Stackage")).
Proof.
  unfold enableRefactoring_catch. simpl.
  destruct (err_code error) as [[c| |]|]; try (left; reflexivity).
  destruct (String.eqb c "ENOENT") eqn:Hc; [right | left; reflexivity].
  apply String.eqb_eq in Hc. subst c. split; reflexivity.
Qed.

(** ** Activation (extension.ts) *)

(** Once HLint passes its check, how activation ends depends on how the
    apply-refact check fails: a spawn error of [stack] itself with code
    [ENOENT] shows the "apply-refact missing" message and activation
    resolves with HLint's version; any other spawn error, and
    [stack exec -- refactor --version] exiting with a non-zero status (as
    [stack exec] does when it cannot run [refactor]), reject activation
    after linting has started, with no message. *)
Theorem activate_refactor_check_failures (hlint_r : ExecResult) (v c : string)
    (status : Z) (out err : string) :
  enableLinting hlint_r = inr v ->
  status <> 0%Z ->
  activate hlint_r (SpawnError c)
  = (if String.eqb c "ENOENT"
     then ([StartLinting; ShowErrorMessage "HLint suggestions not available: apply-refact missing, please install the latest release from Hackage or Stackage"],
           Resolved v)
     else ([StartLinting],
           Rejected (mkJsError Error_class "Error" (Some (JsString c)) true
                       (String.append "spawn stack " c)))) /\
  activate hlint_r (Exited status out err)
  = ([StartLinting],
     Rejected (mkJsError Error_class "Error" (Some (JsNumber status)) false
                 (String.append "Command failed: stack exec -- refactor --version"
                    (String.append newline err)))).
Proof.
  intros Hl Hs. unfold activate. rewrite Hl. split.
  - unfold enableRefactoring_check, getExpectedVersion. simpl.
    unfold enableRefactoring_catch. simpl.
    destruct (String.eqb c "ENOENT"); reflexivity.
  - unfold enableRefactoring_check, getExpectedVersion. simpl.
    apply Z.eqb_neq in Hs. rewrite Hs. reflexivity.
Qed.

Lemma activate_refactor_check_failures_witness :
  let hl := Exited 0 "HLint v2.1.0, (C) Neil Mitchell" "" in
  (enableLinting hl = inr "2.1.0" /\ 1%Z <> 0%Z) /\
  (activate hl (SpawnError "ENOENT")
   = ([StartLinting; ShowErrorMessage "HLint suggestions not available: apply-refact missing, please install the latest release from Hackage or Stackage"],
      Resolved "2.1.0") /\
   activate hl (Exited 1 "" "executable not found")
   = ([StartLinting],
      Rejected (mkJsError Error_class "Error" (Some (JsNumber 1)) false
                  (String.append "Command failed: stack exec -- refactor --version"
                     (String.append newline "executable not found"))))).
Proof.
  assert (Hl : enableLinting (Exited 0 "HLint v2.1.0, (C) Neil Mitchell" "")
               = inr "2.1.0") by (vm_compute; reflexivity).
  split; [split; [exact Hl | discriminate]|].
  destruct (activate_refactor_check_failures _ "2.1.0" "ENOENT" 1 "" "executable not found"
              Hl ltac:(discriminate)) as [H1 H2].
  split; [exact H1 | exact H2].
Defined.

(** ** Matching version output *)

Lemma take_until_comma_cons (c : ascii) (r : list ascii) :
  take_until_comma (c :: r)
  = if Ascii.eqb c ","%char then Some [] else option_map (cons c) (take_until_comma r).
Proof.
  destruct c as [[] [] [] [] [] [] [] []]; reflexivity.
Qed.

Lemma take_until_comma_spec (l p : list ascii) :
  take_until_comma l = Some p <->
  ~ In ","%char p /\ exists rest, l = app p (","%char :: rest).
Proof.
  revert p. induction l as [|c l IH]; intros p.
  - split; [discriminate|]. intros [_ [rest Hr]]. destruct p; discriminate.
  - rewrite take_until_comma_cons. destruct (Ascii.eqb c ",") eqn:Hc.
    + apply Ascii.eqb_eq in Hc. subst c. split.
      * intros [= <-]. split; [intros []|]. exists l. reflexivity.
      * intros [Hn [rest Hr]]. destruct p as [|a p]; [reflexivity|].
        injection Hr as Ha _. exfalso. apply Hn. left. congruence.
    + apply Ascii.eqb_neq in Hc. split.
      * case_eq (take_until_comma l); [|intros _ H; discriminate H].
        intros q Hq [= <-]. apply IH in Hq as [Hn [rest Hr]].
        split.
        -- intros [H|H]; [congruence | contradiction].
        -- exists rest. simpl. rewrite Hr. reflexivity.
      * intros [Hn [rest Hr]]. destruct p as [|a p].
        -- injection Hr as ->. congruence.
        -- injection Hr as -> Hr.
           assert (Hq : take_until_comma l = Some p).
           { apply IH. split; [intros H; apply Hn; right; exact H|].
             exists rest. exact Hr. }
           rewrite Hq. reflexivity.
Qed.

Lemma match_version_hlint_shape (out v : string) :
  match_version HLintVersionPattern out = Some v ->
  exists rest, list_ascii_of_string out = app (list_ascii_of_string "HLint v") rest /\
    take_until_comma rest = Some (list_ascii_of_string v) /\ v <> "".
Proof.
  unfold match_version. generalize (list_ascii_of_string out) as l. intros l.
  do 7 peel_char.
  match goal with
  | |- context [take_until_comma ?r] =>
      case_eq (take_until_comma r); [|intros _ H; discriminate H];
      intros [|a p] Hp H; [discriminate H|]; injection H as <-;
      exists r; split; [reflexivity|]
  end.
  simpl. rewrite list_ascii_of_string_of_list_ascii. split; [exact Hp | discriminate].
Qed.

(** [/^HLint v([^,]+),/]: the output matches with [v] as the version
    exactly when it is ["HLint v"], then a non-empty [v] with no comma, then
    a comma and anything. *)
Theorem match_version_hlint_iff (out v : string) :
  match_version HLintVersionPattern out = Some v <->
  v <> "" /\ ~ In ","%char (list_ascii_of_string v) /\
  exists rest, out = String.append "HLint v" (String.append v (String.append "," rest)).
Proof.
  split.
  - intros H. apply match_version_hlint_shape in H as (l & Hout & Ht & Hv).
    apply take_until_comma_spec in Ht as [Hn [rest Hr]].
    split; [exact Hv|]. split; [exact Hn|].
    exists (string_of_list_ascii rest).
    rewrite <- (string_of_list_ascii_of_string out), Hout, Hr.
    rewrite !string_of_list_ascii_app, !string_of_list_ascii_of_string.
    reflexivity.
  - intros (Hv & Hn & rest & ->).
    unfold match_version.
    rewrite !list_ascii_of_string_append. simpl.
    assert (Ht : take_until_comma (app (list_ascii_of_string v)
                                     (","%char :: list_ascii_of_string rest))
                 = Some (list_ascii_of_string v)).
    { apply take_until_comma_spec. split; [exact Hn|]. eexists. reflexivity. }
    rewrite Ht.
    destruct v as [|a v]; [contradiction|]. simpl.
    rewrite string_of_list_ascii_of_string. reflexivity.
Qed.

Lemma match_version_hlint_iff_witness :
  match_version HLintVersionPattern "HLint v2.1.5, (C) Neil Mitchell 2006-2018"
  = Some "2.1.5" /\
  ("2.1.5" <> "" /\ ~ In ","%char (list_ascii_of_string "2.1.5") /\
   exists rest, "HLint v2.1.5, (C) Neil Mitchell 2006-2018"
                = String.append "HLint v" (String.append "2.1.5" (String.append "," rest))).
Proof.
  assert (H : match_version HLintVersionPattern "HLint v2.1.5, (C) Neil Mitchell 2006-2018"
              = Some "2.1.5") by reflexivity.
  split; [exact H|].
  apply (proj1 (match_version_hlint_iff _ _)). exact H.
Defined.

Lemma take_digits_app_length (d r : list ascii) :
  Forall is_digit d -> no_digit_start r ->
  List.length (fst (JsStr.take_digits (app d r))) = List.length d.
Proof.
  intros Hd Hr. induction Hd as [|c d Hc Hd IH]; simpl.
  - destruct r as [|c r]; [reflexivity|]. simpl in Hr. simpl. rewrite Hr. reflexivity.
  - unfold is_digit in Hc. destruct (JsStr.digit_val c) as [k|]; [|congruence].
    destruct (JsStr.take_digits (app d r)) as [ds rest]. simpl in *. rewrite IH. reflexivity.
Qed.

Lemma firstn_length_app (d r : list ascii) : firstn (List.length d) (app d r) = d.
Proof. induction d as [|c d IH]; simpl; [reflexivity | rewrite IH; reflexivity]. Qed.

Lemma skipn_length_app (d r : list ascii) : skipn (List.length d) (app d r) = r.
Proof. induction d as [|c d IH]; simpl; [reflexivity | exact IH]. Qed.

Lemma digits_prefix_app (d r : list ascii) :
  Forall is_digit d -> no_digit_start r ->
  digits_prefix (app d r) = d.
Proof.
  intros Hd Hr. unfold digits_prefix.
  rewrite (take_digits_app_length d r Hd Hr). apply firstn_length_app.
Qed.

(** [/^v(\d+\.\d+\.\d+)/]: an output ["v"], three non-empty digit runs
    separated by dots, then anything not starting with a digit, matches
    with the three runs as the version. A fourth component such as in
    [v0.6.0.0] is left out of the version. *)
Theorem match_version_apply_refact (d1 d2 d3 rest : list ascii) :
  d1 <> [] -> d2 <> [] -> d3 <> [] ->
  Forall is_digit d1 -> Forall is_digit d2 -> Forall is_digit d3 ->
  no_digit_start rest ->
  match_version ApplyRefactVersionPattern
    (string_of_list_ascii ("v"%char :: app d1 ("."%char :: app d2 ("."%char :: app d3 rest))))
  = Some (string_of_list_ascii (app d1 ("."%char :: app d2 ("."%char :: d3)))).
Proof.
  intros H1 H2 H3 F1 F2 F3 Hr.
  assert (Hdot : forall l, no_digit_start ("."%char :: l)) by (intros; reflexivity).
  unfold match_version. rewrite list_ascii_of_string_of_list_ascii.
  cbv beta iota zeta.
  rewrite (digits_prefix_app d1 _ F1 (Hdot _)).
  destruct d1 as [|a1 d1]; [contradiction|]. cbv iota.
  rewrite skipn_length_app.
  rewrite (digits_prefix_app d2 _ F2 (Hdot _)).
  destruct d2 as [|a2 d2]; [contradiction|]. cbv iota.
  rewrite skipn_length_app.
  rewrite (digits_prefix_app d3 _ F3 Hr).
  destruct d3 as [|a3 d3]; [contradiction|].
  reflexivity.
Qed.

Lemma match_version_apply_refact_witness :
  ((["0"%char] <> [] /\ ["6"%char] <> [] /\ ["0"%char] <> [] /\
    Forall is_digit ["0"%char] /\ Forall is_digit ["6"%char] /\ Forall is_digit ["0"%char] /\
    no_digit_start ["."%char; "0"%char]) /\
   string_of_list_ascii ("v"%char :: app ["0"%char] ("."%char :: app ["6"%char]
      ("."%char :: app ["0"%char] ["."%char; "0"%char]))) = "v0.6.0.0") /\
  match_version ApplyRefactVersionPattern "v0.6.0.0" = Some "0.6.0".
Proof.
  assert (Hd : forall c, JsStr.digit_val c <> None -> is_digit c) by (intros c H; exact H).
  assert (H0 : is_digit "0"%char) by (apply Hd; discriminate).
  assert (H6 : is_digit "6"%char) by (apply Hd; discriminate).
  split; [repeat split; try discriminate; repeat constructor; assumption|].
  exact (match_version_apply_refact ["0"%char] ["6"%char] ["0"%char] ["."%char; "0"%char]
           ltac:(discriminate) ltac:(discriminate) ltac:(discriminate)
           ltac:(repeat constructor; assumption) ltac:(repeat constructor; assumption)
           ltac:(repeat constructor; assumption) eq_refl).
Defined.

(** ** [getExpectedVersion] *)

(** [getExpectedVersion] yields a version exactly when the program exited
    with status 0, its output matches the pattern with that version, and
    the version satisfies the range (loosely); the value is the matched
    text itself. *)
Theorem getExpectedVersion_ok_iff (program : string) (command : list string)
    (p : VersionPattern) (range : string) (r : ExecResult) (v : string) :
  getExpectedVersion program command p range r = inr v <->
  exists out err, r = Exited 0 out err /\ match_version p out = Some v /\
                  Semver.satisfies v range true = inr true.
Proof.
  split.
  - unfold getExpectedVersion. destruct r as [c|status out err]; simpl; [discriminate|].
    destruct (Z.eqb status 0) eqn:Hs; simpl; [|discriminate].
    apply Z.eqb_eq in Hs. subst status.
    destruct (match_version p out) as [w|] eqn:Hm; [|discriminate].
    destruct (Semver.satisfies w range true) as [e|[]] eqn:Hsat; [discriminate| |discriminate].
    intros [= <-]. exists out, err. auto.
  - intros (out & err & -> & Hm & Hsat). unfold getExpectedVersion. simpl.
    rewrite Hm, Hsat. reflexivity.
Qed.

(** When the version program cannot be run or exits with a non-zero status,
    [getExpectedVersion] fails with [execFile]'s error unchanged; when its
    output does not match the pattern it fails with a [VersionError]. *)
Theorem getExpectedVersion_errors (program : string) (command : list string)
    (p : VersionPattern) (range : string) (r : ExecResult) (e : JsError) (out err : string) :
  (execFile_error command r = Some e ->
   getExpectedVersion program command p range r = inl e) /\
  (match_version p out = None ->
   getExpectedVersion program command p range (Exited 0 out err)
   = inl (VersionError (String.append "Failed to extract "
            (String.append program (String.append " version from " out))))).
Proof.
  split.
  - intros He. unfold getExpectedVersion. simpl. rewrite He. reflexivity.
  - intros Hm. unfold getExpectedVersion. simpl. rewrite Hm. reflexivity.
Qed.

Lemma getExpectedVersion_errors_witness :
  (execFile_error ["refactor"; "--version"] (SpawnError "ENOENT")
     = Some (mkJsError Error_class "Error" (Some (JsString "ENOENT")) true
               "spawn refactor ENOENT") /\
   match_version ApplyRefactVersionPattern "refactor 0.6" = None) /\
  (getExpectedVersion "apply-refact" ["refactor"; "--version"] ApplyRefactVersionPattern
     ">= 0.3" (SpawnError "ENOENT")
   = inl (mkJsError Error_class "Error" (Some (JsString "ENOENT")) true
            "spawn refactor ENOENT") /\
   getExpectedVersion "apply-refact" ["refactor"; "--version"] ApplyRefactVersionPattern
     ">= 0.3" (Exited 0 "refactor 0.6" "")
   = inl (VersionError "Failed to extract apply-refact version from refactor 0.6")).
Proof.
  split; [split; reflexivity|].
  destruct (getExpectedVersion_errors "apply-refact" ["refactor"; "--version"]
              ApplyRefactVersionPattern ">= 0.3" (SpawnError "ENOENT")
              (mkJsError Error_class "Error" (Some (JsString "ENOENT")) true
                 "spawn refactor ENOENT")
              "refactor 0.6" "") as [H1 H2].
  split; [apply H1; reflexivity | apply H2; reflexivity].
Defined.

(** The apply-refact range [>= 0.3], compared loosely: the empty string
    is rejected; any other string that [new SemVer] refuses makes
    [satisfies] throw that [TypeError]; a parsed version passes exactly when
    it has no prerelease and is at least 0.3.0, build metadata being
    ignored ([0.6.0+build] passes, [0.6] throws). *)
Theorem satisfies_apply_refact_range (s : string) :
  Semver.satisfies s VERSION_RANGES_applyRefact true =
  (if String.eqb s "" then inr false
   else match Semver.new_SemVer true s with
        | inl e => inl e
        | inr v =>
            inr (match Semver.sv_prerelease v with
                 | [] => Semver.cmp (Semver.sv_version v) Semver.OpGe (Semver.mkVersion 0 3 0)
                 | _ => false
                 end)
        end) /\
  Semver.satisfies "0.6.0+build" VERSION_RANGES_applyRefact true = inr true /\
  Semver.satisfies "0.6" VERSION_RANGES_applyRefact true
    = inl (TypeError "Invalid Version: 0.6").
Proof.
  split; [|split; vm_compute; reflexivity].
  unfold Semver.satisfies. rewrite range_parse_refact.
  destruct (String.eqb s ""); [reflexivity|].
  destruct (Semver.new_SemVer true s) as [e|v]; [reflexivity|].
  unfold Semver.range_test, Semver.test_set. simpl.
  destruct (Semver.sv_prerelease v); simpl;
    rewrite ?andb_true_r, ?andb_false_r, ?orb_false_r; reflexivity.
Qed.

(** ** The order of activation *)

(** Activation starts linting exactly when HLint's check passes, and then
    as its first effect; it registers the refactoring command exactly when
    both checks pass. When HLint's check fails, activation does nothing and
    rejects with that failure, whatever apply-refact would give. *)
Theorem activate_effects (hlint_r refact_r : ExecResult) :
  (In StartLinting (fst (activate hlint_r refact_r)) <->
   exists v, enableLinting hlint_r = inr v) /\
  (In RegisterRefactoring (fst (activate hlint_r refact_r)) <->
   (exists v, enableLinting hlint_r = inr v) /\
   (exists w, enableRefactoring_check refact_r = inr w)) /\
  (fst (activate hlint_r refact_r) = [] \/
   hd_error (fst (activate hlint_r refact_r)) = Some StartLinting) /\
  (forall e, enableLinting hlint_r = inl e ->
   activate hlint_r refact_r = ([], Rejected e)).
Proof.
  unfold activate.
  destruct (enableLinting hlint_r) as [e|v].
  - simpl. split; [split; [intros []|intros [v H]; discriminate H]|].
    split; [split; [intros []|intros [[v H] _]; discriminate H]|].
    split; [left; reflexivity|]. intros e' [= <-]. reflexivity.
  - assert (Hv : exists v', inr v = (inr v' : JsError + string)) by (exists v; reflexivity).
    destruct (enableRefactoring_check refact_r) as [error|w].
    + assert (Hno : ~ exists w, (inl error : JsError + string) = inr w)
        by (intros [w H]; discriminate H).
      destruct (enableRefactoring_catch_outcomes error) as [Hc | [_ Hc]]; rewrite Hc; simpl.
      * split; [split; [intros _; exact Hv | intros _; left; reflexivity]|].
        split; [split; [intros [H|[]]; discriminate H | intros [_ H]; contradiction]|].
        split; [right; reflexivity | intros e H; discriminate H].
      * split; [split; [intros _; exact Hv | intros _; left; reflexivity]|].
        split; [split; [intros [H|[H|[]]]; discriminate H | intros [_ H]; contradiction]|].
        split; [right; reflexivity | intros e H; discriminate H].
    + simpl.
      split; [split; [intros _; exact Hv | intros _; left; reflexivity]|].
      split; [split; [intros _; split; [exact Hv | exists w; reflexivity]
                     | intros _; right; left; reflexivity]|].
      split; [right; reflexivity | intros e H; discriminate H].
Qed.

(** HLint's version fails the range: activation rejects before anything
    is started, so no linting and no refactoring. A version [new SemVer]
    refuses (such as [2.1]) rejects with the [TypeError] of
    [semver.satisfies]; a parsed version outside the range with a
    [VersionError] naming the version and the range. *)
Theorem activate_hlint_version_rejected (out err v : string) (refact_r : ExecResult) :
  match_version HLintVersionPattern out = Some v ->
  Semver.satisfies v VERSION_RANGES_hlint true <> inr true ->
  activate (Exited 0 out err) refact_r
  = ([], Rejected (match Semver.satisfies v VERSION_RANGES_hlint true with
                   | inl e => e
                   | inr _ => VersionError (String.append "HLint version "
                                (String.append v (String.append " did not meet requirements "
                                   VERSION_RANGES_hlint)))
                   end)).
Proof.
  intros Hm Hs. unfold activate, enableLinting, getExpectedVersion, runInWorkspace.
  cbn -[match_version Semver.satisfies]. rewrite Hm.
  destruct (Semver.satisfies v VERSION_RANGES_hlint true) as [e|[]];
    [reflexivity | contradiction | reflexivity].
Qed.

Lemma activate_hlint_version_rejected_witness :
  ((match_version HLintVersionPattern "HLint v2.0.7, (C) Neil Mitchell" = Some "2.0.7" /\
    Semver.satisfies "2.0.7" VERSION_RANGES_hlint true <> inr true) /\
   activate (Exited 0 "HLint v2.0.7, (C) Neil Mitchell" "") (Exited 0 "v0.6.0.0" "")
   = ([], Rejected (VersionError
         "HLint version 2.0.7 did not meet requirements >=2.0.8 || <2 >=1.9.25"))) /\
  ((match_version HLintVersionPattern "HLint v2.1, (C) Neil Mitchell" = Some "2.1" /\
    Semver.satisfies "2.1" VERSION_RANGES_hlint true <> inr true) /\
   activate (Exited 0 "HLint v2.1, (C) Neil Mitchell" "") (Exited 0 "v0.6.0.0" "")
   = ([], Rejected (TypeError "Invalid Version: 2.1"))).
Proof.
  split; (split; [split; [vm_compute; reflexivity | vm_compute; discriminate]|]).
  - exact (activate_hlint_version_rejected "HLint v2.0.7, (C) Neil Mitchell" "" "2.0.7"
            (Exited 0 "v0.6.0.0" "") ltac:(vm_compute; reflexivity)
            ltac:(vm_compute; discriminate)).
  - exact (activate_hlint_version_rejected "HLint v2.1, (C) Neil Mitchell" "" "2.1"
            (Exited 0 "v0.6.0.0" "") ltac:(vm_compute; reflexivity)
            ltac:(vm_compute; discriminate)).
Defined.

(** ** Invariants of the lint pipeline *)

Lemma complete_cycle_shape (JSON_parse : string -> option (list IHLintMessage))
    (d : TextDocument) (r : ExecResult) (s : LintState) :
  inflight (complete_cycle JSON_parse d r s) = inflight s /\
  next_cycle (complete_cycle JSON_parse d r s) = next_cycle s /\
  (forall u, u <> uri d -> diagnostics (complete_cycle JSON_parse d r s) !! u
                           = diagnostics s !! u) /\
  (forall ds, diagnostics (complete_cycle JSON_parse d r s) !! uri d = Some ds ->
   exists ms, ds = map toDiagnostic (List.filter is_stdin_message ms)).
Proof.
  unfold complete_cycle. destruct (lintDocument JSON_parse d r) as [e|ms]; simpl.
  - split; [reflexivity|]. split; [reflexivity|]. split.
    + intros u Hu. apply lookup_delete_ne. congruence.
    + intros ds H. rewrite lookup_delete_eq in H. discriminate H.
  - split; [reflexivity|]. split; [reflexivity|]. split.
    + intros u Hu. apply lookup_insert_ne. congruence.
    + intros ds H. rewrite lookup_insert_eq in H. injection H as <-. exists ms. reflexivity.
Qed.

Lemma lint_step_invariant (JSON_parse : string -> option (list IHLintMessage))
    (s : LintState) (ev : LintEvent) :
  (forall u ds x, diagnostics s !! u = Some ds -> In x ds ->
     exists m, file m = "-" /\ x = toDiagnostic m) ->
  (forall n d, inflight s !! n = Some d -> n < next_cycle s /\ languageId d = "haskell") ->
  (forall u ds x, diagnostics (lint_step JSON_parse s ev) !! u = Some ds -> In x ds ->
     exists m, file m = "-" /\ x = toDiagnostic m) /\
  (forall n d, inflight (lint_step JSON_parse s ev) !! n = Some d ->
     n < next_cycle (lint_step JSON_parse s ev) /\ languageId d = "haskell").
Proof.
  intros Hdiag Hinf. destruct ev as [d|n r|d]; simpl.
  - destruct (String.eqb (languageId d) "haskell") eqn:Hl; [|split; assumption].
    split; [exact Hdiag|]. simpl. intros n d' H.
    apply lookup_insert_Some in H as [[<- <-] | [_ H]].
    + split; [lia|]. apply String.eqb_eq. exact Hl.
    + apply Hinf in H as [Hn Hd]. split; [lia | exact Hd].
  - destruct (inflight s !! n) as [d|] eqn:Hn; [|split; assumption].
    destruct (complete_cycle_shape JSON_parse d r
                (mkLintState (diagnostics s) (delete n (inflight s)) (next_cycle s)
                   (shown_errors s))) as (Hi & Hc & Hother & Hown).
    rewrite Hi, Hc. simpl. split.
    + intros u ds x H Hx. destruct (decide (u = uri d)) as [->|Hu].
      * apply Hown in H as [ms ->]. apply in_map_filter_iff in Hx as (m & _ & Hm & ->).
        exists m. split; [apply String.eqb_eq; exact Hm | reflexivity].
      * rewrite Hother in H by exact Hu. exact (Hdiag u ds x H Hx).
    + intros k d' H. apply lookup_delete_Some in H as [_ H]. exact (Hinf k d' H).
  - split; [|exact Hinf]. intros u ds x H.
    apply lookup_delete_Some in H as [_ H]. exact (Hdiag u ds x H).
Qed.

(** Whatever events happen from the start, (1) every stored diagnostic is
    the diagnostic of an HLint message about ["-"] (standard input), (2)
    every running cycle has a number below the next one and lints a
    Haskell document, and (3) hence a completion for a number never
    dispatched changes nothing. *)
Theorem lint_run_invariant (JSON_parse : string -> option (list IHLintMessage))
    (evs : list LintEvent) :
  let s := lint_run JSON_parse initial_state evs in
  (forall u ds x, diagnostics s !! u = Some ds -> In x ds ->
     exists m, file m = "-" /\ x = toDiagnostic m) /\
  (forall n d, inflight s !! n = Some d -> n < next_cycle s /\ languageId d = "haskell") /\
  (forall n r, next_cycle s <= n -> lint_step JSON_parse s (Completed n r) = s).
Proof.
  cbv zeta. unfold lint_run.
  assert (H : forall s,
    (forall u ds x, diagnostics s !! u = Some ds -> In x ds ->
       exists m, file m = "-" /\ x = toDiagnostic m) ->
    (forall n d, inflight s !! n = Some d -> n < next_cycle s /\ languageId d = "haskell") ->
    (forall u ds x, diagnostics (fold_left (lint_step JSON_parse) evs s) !! u = Some ds ->
       In x ds -> exists m, file m = "-" /\ x = toDiagnostic m) /\
    (forall n d, inflight (fold_left (lint_step JSON_parse) evs s) !! n = Some d ->
       n < next_cycle (fold_left (lint_step JSON_parse) evs s) /\
       languageId d = "haskell")).
  { induction evs as [|ev evs IH]; intros s H1 H2; simpl; [split; assumption|].
    destruct (lint_step_invariant JSON_parse s ev H1 H2) as [H1' H2'].
    exact (IH _ H1' H2'). }
  destruct (H initial_state) as [H1 H2].
  - intros u ds x Hu. discriminate Hu.
  - intros n d Hn. discriminate Hn.
  - split; [exact H1|]. split; [exact H2|].
    intros n r Hn. simpl.
    destruct (inflight (fold_left (lint_step JSON_parse) evs initial_state) !! n)
      as [d|] eqn:Hd; [|reflexivity].
    apply H2 in Hd as [Hlt _]. lia.
Qed.

(** One event changes the diagnostics of no other document: a debounce
    changes none, a close only the closed document's, a completion only
    that of the document its cycle lints. *)
Theorem lint_step_other_documents (JSON_parse : string -> option (list IHLintMessage))
    (s : LintState) (ev : LintEvent) (u : string) :
  match ev with
  | Debounced _ => True
  | Completed n _ => forall d, inflight s !! n = Some d -> u <> uri d
  | Closed d => u <> uri d
  end ->
  diagnostics (lint_step JSON_parse s ev) !! u = diagnostics s !! u.
Proof.
  destruct ev as [d|n r|d]; simpl; intros H.
  - destruct (String.eqb (languageId d) "haskell"); reflexivity.
  - destruct (inflight s !! n) as [d|] eqn:Hn; [|reflexivity].
    destruct (complete_cycle_shape JSON_parse d r
                (mkLintState (diagnostics s) (delete n (inflight s)) (next_cycle s)
                   (shown_errors s))) as (_ & _ & Hother & _).
    apply Hother. exact (H d eq_refl).
  - apply lookup_delete_ne. congruence.
Qed.

Lemma lint_step_other_documents_witness :
  let s := lint_run parse_demo initial_state
             [Debounced docA; Completed 0 (Exited 0 "fresh" "");
              Debounced (mkTextDocument "file:///B.hs" "/B.hs" "haskell" "x = 1" false)] in
  (uri docA <> "file:///B.hs" /\
   diagnostics (lint_step parse_demo s (Completed 1 (Exited 1 "" ""))) !! uri docA
   = diagnostics s !! uri docA) /\
  diagnostics s !! uri docA = Some [toDiagnostic (msg_at "-")].
Proof.
  split; [|vm_compute; reflexivity].
  split; [discriminate|].
  apply (lint_step_other_documents parse_demo _ (Completed 1 (Exited 1 "" "")) (uri docA)).
  intros d Hd. vm_compute in Hd. injection Hd as <-. discriminate.
Defined.

(** ** The file based revision (part_000) *)

(** In part_000 a non-zero exit status is no failure by itself (HLint exits
    with 1 when it has hints): with empty standard error and parsable
    output, whatever the status, the collection is set with one entry per
    message, keyed by [vscode.Uri.file] of the message's own file and
    holding just its diagnostic (without [source] or [code]); messages about
    other files are published too. A spawn failure shows
    ["Failed to run hlint: spawn hlint <code>"]. *)
Theorem part000_callback_entries (JSON_parse : string -> option (list IHLintMessage))
    (d : TextDocument) (status : Z) (out c : string) (ms : list IHLintMessage) :
  JSON_parse out = Some ms ->
  lintDocument_part000_callback JSON_parse d (Exited status out "")
  = SetEntries (map (fun m => (Uri_file (file m), [toDiagnostic_part000 m])) ms) /\
  lintDocument_part000_callback JSON_parse d (SpawnError c)
  = ShowRunFailure (String.append "spawn hlint " c).
Proof.
  intros Hp. split; [|reflexivity].
  unfold lintDocument_part000_callback. simpl.
  destruct (Z.eqb status 0); simpl; rewrite Hp; reflexivity.
Qed.

Lemma part000_callback_entries_witness :
  parse_demo "fresh" = Some [msg_at "-"; msg_at "/a.hs"; msg_at "/b.hs"] /\
  (lintDocument_part000_callback parse_demo docA (Exited 1 "fresh" "")
   = SetEntries [(Uri_file "-", [toDiagnostic_part000 (msg_at "-")]);
                 (Uri_file "/a.hs", [toDiagnostic_part000 (msg_at "/a.hs")]);
                 (Uri_file "/b.hs", [toDiagnostic_part000 (msg_at "/b.hs")])] /\
   lintDocument_part000_callback parse_demo docA (SpawnError "ENOENT")
   = ShowRunFailure "spawn hlint ENOENT").
Proof.
  split; [reflexivity|].
  exact (part000_callback_entries parse_demo docA 1 "fresh" "ENOENT" _ eq_refl).
Defined.

(** ** The promise based revision (part_001) *)

(** [lintDocument] of part_001 leaves the collection as it is for a dirty
    document or one missing on disk; it never changes the entry of another
    document; and when hlint cannot be run or exits with a non-zero status,
    a saved document's entry is deleted. *)
Theorem lintDocument_file_effects (JSON_parse : string -> option (list IHLintMessage))
    (d : TextDocument) (on_disk : bool) (r : ExecResult)
    (diags : gmap string (list Diagnostic)) (u : string) :
  ((isDirty d = true \/ on_disk = false) ->
   lintDocument_file JSON_parse d on_disk r diags = diags) /\
  (u <> uri d -> lintDocument_file JSON_parse d on_disk r diags !! u = diags !! u) /\
  (isDirty d = false ->
   execFile_error ["hlint"; "--no-exit-code"; "--json"; fileName d] r <> None ->
   lintDocument_file JSON_parse d true r diags = delete (uri d) diags).
Proof.
  unfold lintDocument_file. split; [|split].
  - intros [-> | ->]; [reflexivity|]. rewrite orb_true_r. reflexivity.
  - intros Hu. destruct (isDirty d || negb on_disk)%bool; [reflexivity|].
    destruct (match execFile_error ["hlint"; "--no-exit-code"; "--json"; fileName d] r with
              | Some _ => None
              | None => JSON_parse (fst (exec_output r))
              end).
    + apply lookup_insert_ne. congruence.
    + apply lookup_delete_ne. congruence.
  - intros -> He. simpl.
    destruct (execFile_error ["hlint"; "--no-exit-code"; "--json"; fileName d] r);
      [reflexivity | contradiction].
Qed.

(** [applyRefactorings] of part_001 writes the envelope to [refactor]'s
    standard input and closes it (the envelope is never empty). A rejected
    [document.save()] rejects the command before [refactor] runs. After a
    save: with exit status 0 the whole document is replaced by [refactor]'s
    output as it is, even when that is empty, and the command settles as
    [applyEdit] does, a rejection included; otherwise it shows
    ["Failed to run refactor,<file>: "] and node's error message with
    standard error, and resolves with [false]. It rejects only through the
    save or [applyEdit]. *)
Theorem part001_applyRefactorings_outcomes (d : TextDocument) (refs : string)
    (save : Settled bool) (r : ExecResult) (edit : Settled bool) :
  run_stdin (Part001.refactor_file_run d refs) = [StdinEnd (refactor_envelope refs)] /\
  (forall e, save = Rejected e ->
   Part001.applyRefactorings d refs save r edit = ([], Rejected e)) /\
  (forall b out err, save = Resolved b -> r = Exited 0 out err ->
   Part001.applyRefactorings d refs save r edit = ([ApplyEdit (uri d) out], edit)) /\
  (forall b status out err, save = Resolved b -> r = Exited status out err -> status <> 0%Z ->
   Part001.applyRefactorings d refs save r edit
   = ([ShowErrorMessage (String.append "Failed to run refactor,"
        (String.append (fileName d) (String.append ": Command failed: refactor "
          (String.append (fileName d) (String.append newline
            (String.append err (String.append " (stderr: " (String.append err ")"))))))))],
      Resolved false)) /\
  (forall b c, save = Resolved b -> r = SpawnError c ->
   Part001.applyRefactorings d refs save r edit
   = ([ShowErrorMessage (String.append "Failed to run refactor,"
        (String.append (fileName d) (String.append ": spawn refactor "
          (String.append c " (stderr: )"))))], Resolved false)) /\
  (forall e, snd (Part001.applyRefactorings d refs save r edit) = Rejected e ->
   save = Rejected e \/ edit = Rejected e).
Proof.
  split; [reflexivity|]. split; [|split; [|split; [|split]]].
  - intros e ->. reflexivity.
  - intros b out err -> ->. reflexivity.
  - intros b status out err -> -> Hs. unfold Part001.applyRefactorings. simpl.
    apply Z.eqb_neq in Hs. rewrite Hs. simpl. rewrite !string_append_assoc. reflexivity.
  - intros b c -> ->. simpl. rewrite !string_append_assoc. reflexivity.
  - intros e. unfold Part001.applyRefactorings.
    destruct save as [b|e']; [|intros H; left; exact H].
    destruct (run_result (Part001.refactor_file_run d refs) r); simpl;
      [discriminate | intros H; right; exact H].
Qed.

Lemma part001_applyRefactorings_outcomes_witness :
  let e := jsError "EACCES: permission denied" in
  ((Rejected e : Settled bool) = Rejected e /\
   Part001.applyRefactorings docA "[]" (Rejected e) (Exited 0 "x" "") (Resolved true)
   = ([], Rejected e)) /\
  ((Resolved true : Settled bool) = Resolved true /\ Exited 0 "x" "" = Exited 0 "x" "" /\
   Part001.applyRefactorings docA "[]" (Resolved true) (Exited 0 "x" "") (Rejected e)
   = ([ApplyEdit (uri docA) "x"], Rejected e)) /\
  (Part001.applyRefactorings docA "[]" (Resolved true) (Exited 1 "" "parse error")
     (Resolved true)
   = ([ShowErrorMessage (String.append "Failed to run refactor,/A.hs: Command failed: refactor /A.hs"
        (String.append newline "parse error (stderr: parse error)"))], Resolved false)) /\
  (Part001.applyRefactorings docA "[]" (Resolved true) (SpawnError "ENOENT") (Resolved true)
   = ([ShowErrorMessage "Failed to run refactor,/A.hs: spawn refactor ENOENT (stderr: )"],
      Resolved false)).
Proof.
  intros e.
  destruct (part001_applyRefactorings_outcomes docA "[]" (Rejected e) (Exited 0 "x" "")
              (Resolved true)) as (_ & H1 & _).
  destruct (part001_applyRefactorings_outcomes docA "[]" (Resolved true) (Exited 0 "x" "")
              (Rejected e)) as (_ & _ & H2 & _).
  destruct (part001_applyRefactorings_outcomes docA "[]" (Resolved true)
              (Exited 1 "" "parse error") (Resolved true)) as (_ & _ & _ & H3 & _).
  destruct (part001_applyRefactorings_outcomes docA "[]" (Resolved true)
              (SpawnError "ENOENT") (Resolved true)) as (_ & _ & _ & _ & H4 & _).
  split; [split; [reflexivity | exact (H1 e eq_refl)]|].
  split; [split; [reflexivity | split; [reflexivity | exact (H2 true "x" "" eq_refl eq_refl)]]|].
  split.
  - exact (H3 true 1%Z "" "parse error" eq_refl eq_refl ltac:(discriminate)).
  - exact (H4 true "ENOENT" eq_refl eq_refl).
Defined.

(** [activate] of part_001 registers the code actions and the command and
    starts linting exactly when [hlint --version] exits with status 0 and
    prints an HLint version that satisfies the requirement (compared
    strictly). A parsed version outside the requirement, or output that
    does not match, shows one error message, starts nothing and resolves.
    A version [new SemVer] refuses (such as [2.1] or [v01.9.30]) makes
    [semver.satisfies] throw: activation starts nothing and rejects with that
    [TypeError], showing nothing. When hlint cannot be run or exits with a
    non-zero status, activation starts nothing and rejects with the error of
    [runInWorkspace]. *)
Theorem part001_activate_outcomes (r : ExecResult) :
  (In RegisterRefactoring (fst (Part001.activate r)) <->
   exists out err v, r = Exited 0 out err /\ match_version HLintVersionPattern out = Some v /\
     Semver.satisfies v Part001.HLINT_VERSION_REQUIREMENT false = inr true) /\
  (In StartLinting (fst (Part001.activate r)) <->
   In RegisterRefactoring (fst (Part001.activate r))) /\
  (forall out err v, r = Exited 0 out err -> match_version HLintVersionPattern out = Some v ->
   Semver.satisfies v Part001.HLINT_VERSION_REQUIREMENT false = inr false ->
   Part001.activate r
   = ([ShowErrorMessage (String.append "HLint version " (String.append v
        (String.append " did not meet requirements: "
          (String.append Part001.HLINT_VERSION_REQUIREMENT
             "! Please install the latest hlint version from Stackage or Hackage."))))],
      Resolved tt)) /\
  (forall out err v e, r = Exited 0 out err -> match_version HLintVersionPattern out = Some v ->
   Semver.satisfies v Part001.HLINT_VERSION_REQUIREMENT false = inl e ->
   Part001.activate r = ([], Rejected e)) /\
  (forall out err, r = Exited 0 out err -> match_version HLintVersionPattern out = None ->
   Part001.activate r
   = ([ShowErrorMessage (String.append "Failed to parse HLint version from output: " out)],
      Resolved tt)) /\
  (forall e, execFile_error ["hlint"; "--version"] r = Some e ->
   Part001.activate r
   = ([], Rejected (jsError (String.append "Failed to run hlint,--version: "
            (String.append (err_message e) (String.append " (stderr: "
              (String.append (snd (exec_output r)) ")"))))))).
Proof.
  unfold Part001.activate, Part001.checkHLintVersion, Part001.runInWorkspace.
  destruct r as [c|status out err]; cbn -[match_version Semver.satisfies].
  - split; [split; [intros [] | intros (out & err & v & H & _); discriminate H]|].
    split; [split; intros []|].
    split; [intros out err v H; discriminate H|].
    split; [intros out err v e H; discriminate H|].
    split; [intros out err H; discriminate H|].
    intros e [= <-]. reflexivity.
  - destruct (Z.eqb status 0) eqn:Hs; cbn -[match_version Semver.satisfies].
    + apply Z.eqb_eq in Hs. subst status.
      destruct (match_version HLintVersionPattern out) as [v|] eqn:Hm.
      * destruct (Semver.satisfies v Part001.HLINT_VERSION_REQUIREMENT false)
          as [e|[]] eqn:Hsat; cbn -[match_version Semver.satisfies].
        -- split; [split; [intros [] | intros (out' & err' & v' & [= <- <-] & Hm' & Hsat');
                                       congruence]|].
           split; [split; intros []|].
           split; [intros out' err' v' [= <- <-] Hm' Hsat'; congruence|].
           split; [intros out' err' v' e' [= <- <-] Hm' Hsat'; congruence|].
           split; [intros out' err' [= <- <-] Hm'; congruence|].
           intros e' H. discriminate H.
        -- split; [split; [intros _; exists out, err, v; auto | intros _; left; reflexivity]|].
           split; [split; intros _; [left | right; left]; reflexivity|].
           split; [intros out' err' v' [= <- <-] Hm' Hsat'; congruence|].
           split; [intros out' err' v' e' [= <- <-] Hm' Hsat'; congruence|].
           split; [intros out' err' [= <- <-] Hm'; congruence|].
           intros e' H. discriminate H.
        -- split; [split; [intros [H|[]]; discriminate H
                          | intros (out' & err' & v' & [= <- <-] & Hm' & Hsat'); congruence]|].
           split; [split; intros [H|[]]; discriminate H|].
           split; [intros out' err' v' [= <- <-] Hm' _; rewrite Hm' in Hm;
                   injection Hm as ->; reflexivity|].
           split; [intros out' err' v' e' [= <- <-] Hm' Hsat'; congruence|].
           split; [intros out' err' [= <- <-] Hm'; congruence|].
           intros e' H. discriminate H.
      * split; [split; [intros [H|[]]; discriminate H
                       | intros (out' & err' & v' & [= <- <-] & Hm' & _); congruence]|].
        split; [split; intros [H|[]]; discriminate H|].
        split; [intros out' err' v' [= <- <-] Hm'; congruence|].
        split; [intros out' err' v' e' [= <- <-] Hm'; congruence|].
        split; [intros out' err' [= <- <-] _; reflexivity|].
        intros e' H. discriminate H.
    + split; [split; [intros [] | intros (out' & err' & v' & [= Hs0 _ _] & _);
                                  subst status; discriminate Hs]|].
      split; [split; intros []|].
      split; [intros out' err' v' [= Hs0 _ _]; subst status; discriminate Hs|].
      split; [intros out' err' v' e' [= Hs0 _ _]; subst status; discriminate Hs|].
      split; [intros out' err' [= Hs0 _ _]; subst status; discriminate Hs|].
      intros e [= <-]. reflexivity.
Qed.

Lemma lintDocument_file_effects_witness :
  let dirty := mkTextDocument "file:///A.hs" "/A.hs" "haskell" "x" true in
  let diags := <["file:///A.hs" := [toDiagnostic (msg_at "/A.hs")]]> (∅ : gmap string (list Diagnostic)) in
  (lintDocument_file parse_demo dirty true (SpawnError "ENOENT") diags = diags /\
   lintDocument_file parse_demo docA true (Exited 0 "fresh" "") diags !! "file:///B.hs"
   = diags !! "file:///B.hs" /\
   lintDocument_file parse_demo docA true (SpawnError "ENOENT") diags
   = delete (uri docA) diags).
Proof.
  cbv zeta.
  destruct (lintDocument_file_effects parse_demo
              (mkTextDocument "file:///A.hs" "/A.hs" "haskell" "x" true) true
              (SpawnError "ENOENT")
              (<["file:///A.hs" := [toDiagnostic (msg_at "/A.hs")]]> ∅) "file:///B.hs")
    as [H1 _].
  destruct (lintDocument_file_effects parse_demo docA true (Exited 0 "fresh" "")
              (<["file:///A.hs" := [toDiagnostic (msg_at "/A.hs")]]> ∅) "file:///B.hs")
    as [_ [H2 _]].
  destruct (lintDocument_file_effects parse_demo docA true (SpawnError "ENOENT")
              (<["file:///A.hs" := [toDiagnostic (msg_at "/A.hs")]]> ∅) "file:///B.hs")
    as [_ [_ H3]].
  split; [apply H1; left; reflexivity|].
  split; [apply H2; discriminate | apply H3; [reflexivity | discriminate]].
Defined.

Lemma part001_activate_outcomes_witness :
  Part001.activate (Exited 0 "HLint v2.0.7, (C) Neil Mitchell" "")
  = ([ShowErrorMessage "HLint version 2.0.7 did not meet requirements: >=2.0.8 || <2 >=1.9.25! Please install the latest hlint version from Stackage or Hackage."],
     Resolved tt) /\
  Part001.activate (Exited 0 "HLint v2.1, (C) Neil Mitchell" "")
  = ([], Rejected (TypeError "Invalid Version: 2.1")) /\
  Part001.activate (Exited 0 "HLint v01.9.30, (C) Neil Mitchell" "")
  = ([], Rejected (TypeError "Invalid Version: 01.9.30")) /\
  Part001.activate (Exited 0 "hlint 2.0.9" "")
  = ([ShowErrorMessage "Failed to parse HLint version from output: hlint 2.0.9"], Resolved tt) /\
  Part001.activate (SpawnError "ENOENT")
  = ([], Rejected (jsError "Failed to run hlint,--version: spawn hlint ENOENT (stderr: )")) /\
  In RegisterRefactoring (fst (Part001.activate (Exited 0 "HLint v2.0.8, (C) Neil Mitchell" ""))).
Proof.
  destruct (part001_activate_outcomes (Exited 0 "HLint v2.0.7, (C) Neil Mitchell" ""))
    as (_ & _ & H1 & _).
  destruct (part001_activate_outcomes (Exited 0 "HLint v2.1, (C) Neil Mitchell" ""))
    as (_ & _ & _ & H2 & _).
  destruct (part001_activate_outcomes (Exited 0 "HLint v01.9.30, (C) Neil Mitchell" ""))
    as (_ & _ & _ & H3 & _).
  destruct (part001_activate_outcomes (Exited 0 "hlint 2.0.9" ""))
    as (_ & _ & _ & _ & H4 & _).
  destruct (part001_activate_outcomes (SpawnError "ENOENT")) as (_ & _ & _ & _ & _ & H5).
  destruct (part001_activate_outcomes (Exited 0 "HLint v2.0.8, (C) Neil Mitchell" ""))
    as [[_ H6] _].
  split; [exact (H1 _ _ "2.0.7" eq_refl ltac:(vm_compute; reflexivity)
                    ltac:(vm_compute; reflexivity))|].
  split; [exact (H2 _ _ "2.1" _ eq_refl ltac:(vm_compute; reflexivity)
                    ltac:(vm_compute; reflexivity))|].
  split; [exact (H3 _ _ "01.9.30" _ eq_refl ltac:(vm_compute; reflexivity)
                    ltac:(vm_compute; reflexivity))|].
  split; [exact (H4 _ _ eq_refl ltac:(vm_compute; reflexivity))|].
  split; [exact (H5 _ eq_refl)|].
  apply H6. exists "HLint v2.0.8, (C) Neil Mitchell", "", "2.0.8".
  split; [reflexivity|]. split; vm_compute; reflexivity.
Defined.
